(** * ClassTrack front end: derived state, query engine and store contract

    A shallow embedding of the utility layer of the ClassTrack front end
    (date-derived state, priority lookup, sorting, filtering, progress
    percentage) together with a model of the store operations that the
    front end reaches through the REST API.

    Conventions.
    - A JavaScript number that holds an integer is a [Z]; the one place
      where a fraction is computed ([calculateProgress]) uses IEEE 754
      binary64 arithmetic through [spec_float].
    - A [Date] is its time value: milliseconds since the epoch, in UTC.
    - Arrays live in a store of array objects when aliasing matters
      (module [Mem]); their contents are lists.
    - The server behind the API is not among the sources; module [Store]
      models its tables and the two operations studied here from the
      specification. *)

From Stdlib Require Import ZArith String Ascii List Lia Bool.
From Stdlib Require Import Sorting.Permutation Sorting.Sorted.
From Stdlib Require Import Floats.SpecFloat.
From Stdlib Require DecimalString DecimalZ.
From stdpp Require Import base gmap strings list.

Local Open Scope Z_scope.

(** ** JavaScript numbers (binary64) *)

Module Number.

Definition prec : Z := 53.
Definition emax : Z := 1024.

(** The Number value of an integer literal or integer-valued field;
    exact below 2^53. *)
Definition ofZ (n : Z) : spec_float := binary_normalize prec emax n 0 false.

Definition div (x y : spec_float) : spec_float := SFdiv prec emax x y.
Definition mul (x y : spec_float) : spec_float := SFmul prec emax x y.

(** [Math.round]: the integral Number closest to [x], the one closer to
    +infinity on a tie; NaN, the infinities and the zeros are returned as
    they are, and a negative [x >= -0.5] gives [-0]. *)
Definition Math_round (x : spec_float) : spec_float :=
  match x with
  | S754_finite s m e =>
      let sm := if s then Z.neg m else Z.pos m in
      let n :=
        if 0 <=? e then sm * 2 ^ e
        else (2 * sm + 2 ^ (- e)) / (2 * 2 ^ (- e)) in
      if n =? 0 then S754_zero s else ofZ n
  | _ => x
  end.

End Number.

(** ** Progress percentage *)

(** [calculateProgress(completed, total)]:
    [if (total === 0) return 0;
     return Math.round((completed / total) * 100);] *)
Definition calculateProgress (completed total : Z) : spec_float :=
  if total =? 0 then Number.ofZ 0
  else Number.Math_round
         (Number.mul (Number.div (Number.ofZ completed) (Number.ofZ total))
                     (Number.ofZ 100)).

(** The rate as the specification words it: the integer nearest to the
    rational [100 * completed / total] (a tie goes up, as [Math.round]
    does), and [0] when [total = 0]. *)
Definition spec_completionRate (completed total : Z) : Z :=
  if total =? 0 then 0 else (2 * (100 * completed) + total) / (2 * total).

(** The code and the stated rate give the same number. *)
Definition ratesAgree (completed total : Z) : bool :=
  match SFcompare (calculateProgress completed total)
          (Number.ofZ (spec_completionRate completed total)) with
  | Some Eq => true
  | _ => false
  end.

(** The pairs [(completed, total)] with [completed <= total <= n],
    [total >= 1], on which the two differ. *)
Definition rateMismatches (n : nat) : list (Z * Z) :=
  List.filter (fun ct => negb (ratesAgree ct.1 ct.2))
    (List.flat_map
       (fun t => List.map (fun c => (Z.of_nat c, Z.of_nat t))
                   (List.seq 0 (S t)))
       (List.seq 1 n)).

(** ** Priority display info *)

Record PriorityInfo := {
  pi_class : string;
  pi_label : string;
  pi_order : Z
}.

(** What a property read on the object literal [priorities] can yield: one
    of its three own entries, or a member inherited from
    [Object.prototype] (the object literal's prototype). *)
Inductive Looked :=
| OwnEntry (i : PriorityInfo)
| Inherited (name : string).

Definition info_high : PriorityInfo :=
  {| pi_class := "priority-high"; pi_label := "High"; pi_order := 1 |}.
Definition info_medium : PriorityInfo :=
  {| pi_class := "priority-medium"; pi_label := "Medium"; pi_order := 2 |}.
Definition info_low : PriorityInfo :=
  {| pi_class := "priority-low"; pi_label := "Low"; pi_order := 3 |}.

(** Own properties of the literal [priorities]. *)
Definition priorities_own (key : string) : option PriorityInfo :=
  if String.eqb key "high" then Some info_high
  else if String.eqb key "medium" then Some info_medium
  else if String.eqb key "low" then Some info_low
  else None.

(** The property names of [Object.prototype]; every one of them holds a
    function, except the accessor [__proto__], which yields the prototype
    object itself: all are truthy. *)
Definition Object_prototype_keys : list string :=
  [ "constructor"; "__defineGetter__"; "__defineSetter__"; "hasOwnProperty";
    "__lookupGetter__"; "__lookupSetter__"; "isPrototypeOf";
    "propertyIsEnumerable"; "toString"; "valueOf"; "__proto__";
    "toLocaleString" ]%string.

(** [priorities[key]]: own property first, then the prototype chain;
    [None] is [undefined]. *)
Definition priorities_get (key : string) : option Looked :=
  match priorities_own key with
  | Some i => Some (OwnEntry i)
  | None =>
      if existsb (String.eqb key) Object_prototype_keys
      then Some (Inherited key) else None
  end.

(** The property key of the argument: [undefined] (here [None]) is
    converted to the string ["undefined"]. *)
Definition ToPropertyKey (priority : option string) : string :=
  match priority with
  | Some s => s
  | None => "undefined"
  end.

(** [getPriorityInfo(priority)]:
    [return priorities[priority] || priorities.medium;]
    Every value a lookup can yield is an object or a function, hence
    truthy; only [undefined] falls through to the medium entry. *)
Definition getPriorityInfo (priority : option string) : Looked :=
  match priorities_get (ToPropertyKey priority) with
  | Some v => v
  | None => OwnEntry info_medium
  end.

(** ** Dates *)

Definition msPerDay : Z := 86400000.

(** The host's time zone: the offset, in milliseconds, that local time is
    ahead of UTC, read at a UTC instant ([LocalTime]) and at a local time
    value ([UTC]).  A zone without daylight saving has one constant. *)
Record Zone := {
  offsetAtUTC : Z -> Z;
  offsetAtLocal : Z -> Z
}.

Definition fixedZone (offset : Z) : Zone :=
  {| offsetAtUTC := fun _ => offset; offsetAtLocal := fun _ => offset |}.

Definition msPerHour : Z := 3600000.

Definition Day (t : Z) : Z := t / msPerDay.
Definition LocalTime (z : Zone) (t : Z) : Z := t + offsetAtUTC z t.
Definition UTC (z : Zone) (t : Z) : Z := t - offsetAtLocal z t.

(** [date.setHours(0, 0, 0, 0)]: the time value of local midnight of the
    local calendar day the instant [t] falls on. *)
Definition setHours0 (z : Zone) (t : Z) : Z :=
  UTC z (Day (LocalTime z t) * msPerDay).

(** The local calendar day (days since the epoch) of an instant. *)
Definition localDay (z : Zone) (t : Z) : Z := Day (LocalTime z t).

(** A date-only ISO string [YYYY-MM-DD], by its three fields (those of a
    date of the calendar). *)
Record IsoDate := {
  iso_year : Z;
  iso_month : Z;
  iso_day : Z
}.

(** The day number of a calendar date (days since 1970-01-01), in the
    proleptic Gregorian calendar. *)
Definition MakeDay (d : IsoDate) : Z :=
  let y := if iso_month d <=? 2 then iso_year d - 1 else iso_year d in
  let era := y / 400 in
  let yoe := y - era * 400 in
  let mp := (iso_month d + 9) mod 12 in
  let doy := (153 * mp + 2) / 5 + iso_day d - 1 in
  let doe := yoe * 365 + yoe / 4 - yoe / 100 + doy in
  era * 146097 + doe - 719468.

(** [new Date("YYYY-MM-DD")]: a date-only string is read as UTC, so the
    time value is midnight UTC of that day. *)
Definition Date_parse (d : IsoDate) : Z := MakeDay d * msPerDay.

(** [Math.ceil(a / b)] for an integer [a] and a positive integer [b]; the
    binary64 quotient of two such integers falls on an integer only when
    [b] divides [a], for every [a] a calendar difference can take. *)
Definition Math_ceil_div (a b : Z) : Z := - ((- a) / b).

(** [daysUntilDue(dueDate)], with the clock reading [now] of [new Date()]
    and the host's zone made explicit. *)
Definition daysUntilDue (z : Zone) (now : Z) (dueDate : IsoDate) : Z :=
  let today := now in
  let due := Date_parse dueDate in
  let today := setHours0 z today in
  let due := setHours0 z due in
  let diffTime := due - today in
  let diffDays := Math_ceil_div diffTime (1000 * 60 * 60 * 24) in
  diffDays.

(** [isOverdue(dueDate, completed)] *)
Definition isOverdue (z : Zone) (now : Z) (dueDate : IsoDate)
  (completed : bool) : bool :=
  if completed then false
  else daysUntilDue z now dueDate <? 0.

(** [isDueSoon(dueDate, completed)] *)
Definition isDueSoon (z : Zone) (now : Z) (dueDate : IsoDate)
  (completed : bool) : bool :=
  if completed then false
  else
    let days := daysUntilDue z now dueDate in
    (days >=? 0) && (days <=? 3).

(** ** Strings *)

(** [toLowerCase] on ASCII text: [A]-[Z] go to [a]-[z], every other code
    unit stays.  Text outside ASCII, which JavaScript folds by the Unicode
    tables, is outside this model: the statements on searching assume
    [isAscii] of the strings involved. *)
Definition lower_ascii (c : ascii) : ascii :=
  let n := nat_of_ascii c in
  if ((65 <=? n) && (n <=? 90))%nat then ascii_of_nat (n + 32) else c.

Fixpoint toLowerCase (s : string) : string :=
  match s with
  | EmptyString => EmptyString
  | String c r => String (lower_ascii c) (toLowerCase r)
  end.

(** [t] is read at the start of [s]. *)
Fixpoint startsWith (s t : string) {struct t} : bool :=
  match t with
  | EmptyString => true
  | String c t' =>
      match s with
      | EmptyString => false
      | String d s' => Ascii.eqb c d && startsWith s' t'
      end
  end.

(** [s.includes(t)]: [t] occurs in [s] at some position. *)
Fixpoint includes (s t : string) : bool :=
  startsWith s t ||
  match s with
  | EmptyString => false
  | String _ r => includes r t
  end.

(** Truthiness of a value that is a string or absent ([undefined],
    [null]): only a non-empty string is truthy. *)
Definition truthy (v : option string) : bool :=
  match v with
  | Some s => negb (String.eqb s "")
  | None => false
  end.

(** [parseInt(string)] with no radix: leading white space, an optional
    sign, an optional [0x] prefix (radix 16, else 10), then the longest
    run of digits; [None] is NaN.  The model is exact where JavaScript
    is: on ASCII text (the white space skipped is the ASCII one) and for
    values below 2^53 in size, which a Number holds exactly; the
    statements that depend on the value read assume both ([isAscii],
    [safeParse]). *)
Definition isWhiteSpace (c : ascii) : bool :=
  let n := nat_of_ascii c in
  ((n =? 32) || ((9 <=? n) && (n <=? 13)))%nat.

Fixpoint trimStart (s : string) : string :=
  match s with
  | String c r => if isWhiteSpace c then trimStart r else s
  | EmptyString => EmptyString
  end.

Definition digitValue (radix : Z) (c : ascii) : option Z :=
  let n := Z.of_nat (nat_of_ascii c) in
  let v :=
    if (48 <=? n) && (n <=? 57) then n - 48
    else if (97 <=? n) && (n <=? 122) then n - 97 + 10
    else if (65 <=? n) && (n <=? 90) then n - 65 + 10
    else 36 in
  if v <? radix then Some v else None.

Fixpoint parseDigits (radix : Z) (s : string) (acc : option Z) : option Z :=
  match s with
  | EmptyString => acc
  | String c r =>
      match digitValue radix c with
      | Some v => parseDigits radix r (Some (default 0 acc * radix + v))
      | None => acc
      end
  end.

Definition parseInt (s : string) : option Z :=
  let s := trimStart s in
  let '(sign, s) :=
    match s with
    | String "-" r => (-1, r)
    | String "+" r => (1, r)
    | _ => (1, s)
    end in
  let '(radix, s) :=
    match s with
    | String "0" (String "x" r) => (16, r)
    | String "0" (String "X" r) => (16, r)
    | _ => (10, s)
    end in
  match parseDigits radix s None with
  | Some n => Some (sign * n)
  | None => None
  end.

(** ** Assignments as the front end receives them *)

Record Assignment := {
  assignment_id : Z;
  courseId : Z;
  title : string;
  description : option string;
  dueDate : IsoDate;
  priority : string;
  points : Z;
  completed : bool;
  courseName : option string;
  courseCode : string;
  courseColor : string
}.

(** The [filters] object: each property a string, or absent. *)
Record Filters := {
  f_courseId : option string;
  f_status : option string;
  f_search : option string
}.

(** ** Filtering *)

(** [(a) => a.courseId === parseInt(filters.courseId)]: a number is never
    strictly equal to NaN. *)
Definition byCourse (cid : string) (a : Assignment) : bool :=
  match parseInt cid with
  | Some n => courseId a =? n
  | None => false
  end.

(** [(a) => a.completed] and [(a) => !a.completed] *)
Definition byCompleted (a : Assignment) : bool := completed a.
Definition byIncomplete (a : Assignment) : bool := negb (completed a).

(** [x && x.toLowerCase().includes(searchLower)] for an optional field. *)
Definition fieldIncludes (x : option string) (searchLower : string) : bool :=
  match x with
  | Some s => negb (String.eqb s "") && includes (toLowerCase s) searchLower
  | None => false
  end.

(** The search callback: title, description, course name. *)
Definition bySearch (searchLower : string) (a : Assignment) : bool :=
  includes (toLowerCase (title a)) searchLower
  || fieldIncludes (description a) searchLower
  || fieldIncludes (courseName a) searchLower.

Definition statusIs (filters : Filters) (s : string) : bool :=
  match f_status filters with
  | Some v => String.eqb v s
  | None => false
  end.

(** [filterAssignments(assignments, filters)], on the contents of the
    arrays. *)
Definition filterAssignments (assignments : list Assignment)
  (filters : Filters) : list Assignment :=
  let filtered := assignments in
  let filtered :=
    if truthy (f_courseId filters)
    then List.filter (byCourse (default "" (f_courseId filters))) filtered
    else filtered in
  let filtered :=
    if statusIs filters "completed" then List.filter byCompleted filtered
    else if statusIs filters "incomplete"
         then List.filter byIncomplete filtered
         else filtered in
  let filtered :=
    if truthy (f_search filters)
    then
      let searchLower := toLowerCase (default "" (f_search filters)) in
      List.filter (bySearch searchLower) filtered
    else filtered in
  filtered.

(** The search criterion as the specification words it: the lower-cased
    search string occurs in the title, the description, the course name or
    the course code. *)
Definition spec_searchMatch (search : string) (a : Assignment) : bool :=
  let searchLower := toLowerCase search in
  includes (toLowerCase (title a)) searchLower
  || fieldIncludes (description a) searchLower
  || fieldIncludes (courseName a) searchLower
  || includes (toLowerCase (courseCode a)) searchLower.

(** The three criteria, each as a test on one assignment. *)
Definition courseCriterion (filters : Filters) (a : Assignment) : bool :=
  if truthy (f_courseId filters)
  then byCourse (default "" (f_courseId filters)) a
  else true.

Definition statusCriterion (filters : Filters) (a : Assignment) : bool :=
  if statusIs filters "completed" then byCompleted a
  else if statusIs filters "incomplete" then byIncomplete a
  else true.

Definition searchCriterion (filters : Filters) (a : Assignment) : bool :=
  if truthy (f_search filters)
  then bySearch (toLowerCase (default "" (f_search filters))) a
  else true.

(** [t] is a substring of [s]. *)
Definition occursIn (t s : string) : Prop :=
  exists a b : string, s = String.append a (String.append t b).

Definition withSearch (filters : Filters) (search : option string)
  : Filters :=
  {| f_courseId := f_courseId filters; f_status := f_status filters;
     f_search := search |}.

(** ** Sorting *)

(** [Array.prototype.sort] with a comparator, on the contents: the sort is
    stable, an element goes before another when the comparator is
    negative and after it when positive; a NaN result counts as [+0].
    For a comparator that orders by a key the stable sorted arrangement is
    unique, so this insertion sort returns what every engine returns. *)
Definition SortCompare {A} (cmp : A -> A -> option Z) (x y : A) : Z :=
  default 0 (cmp x y).

Fixpoint sort_insert {A} (cmp : A -> A -> option Z) (x : A) (l : list A)
  : list A :=
  match l with
  | [] => [x]
  | y :: r =>
      if SortCompare cmp x y <=? 0 then x :: y :: r
      else y :: sort_insert cmp x r
  end.

Fixpoint Array_sort {A} (cmp : A -> A -> option Z) (l : list A) : list A :=
  match l with
  | [] => []
  | x :: r => sort_insert cmp x (Array_sort cmp r)
  end.

(** Order by a sort key, and the test for one value of the key. *)
Definition keyLe {A} (key : A -> Z) (a b : A) : Prop := key a <= key b.
Definition hasKey {A} (key : A -> Z) (k : Z) (a : A) : bool := key a =? k.

(** The literal [priorityOrder = { high: 1, medium: 2, low: 3 }]; any
    other key gives a value on which subtraction is NaN. *)
Definition priorityOrder (p : string) : option Z :=
  if String.eqb p "high" then Some 1
  else if String.eqb p "medium" then Some 2
  else if String.eqb p "low" then Some 3
  else None.

(** [(a, b) => new Date(a.dueDate) - new Date(b.dueDate)] *)
Definition compareDueDate (a b : Assignment) : option Z :=
  Some (Date_parse (dueDate a) - Date_parse (dueDate b)).

(** [(a, b) => priorityOrder[a.priority] - priorityOrder[b.priority]] *)
Definition comparePriority (a b : Assignment) : option Z :=
  match priorityOrder (priority a), priorityOrder (priority b) with
  | Some x, Some y => Some (x - y)
  | _, _ => None
  end.

(** [(a, b) => b.points - a.points] *)
Definition comparePoints (a b : Assignment) : option Z :=
  Some (points b - points a).

(** The comparator the [switch (sortBy)] selects. *)
Definition comparator (sortBy : string)
  : Assignment -> Assignment -> option Z :=
  if String.eqb sortBy "dueDate" then compareDueDate
  else if String.eqb sortBy "priority" then comparePriority
  else if String.eqb sortBy "points" then comparePoints
  else compareDueDate.

(** [sortAssignments(assignments, sortBy)], on the contents of the
    arrays. *)
Definition sortAssignments (assignments : list Assignment) (sortBy : string)
  : list Assignment :=
  let sorted := assignments in
  Array_sort (comparator sortBy) sorted.

(** The rank of a priority of the enumeration (the sort key). *)
Definition priorityRank (a : Assignment) : Z :=
  default 0 (priorityOrder (priority a)).

(** The sort keys of the other two orders: the time value of the due
    date, and the points negated (descending points). *)
Definition dueKey (a : Assignment) : Z := Date_parse (dueDate a).
Definition pointsKey (a : Assignment) : Z := - points a.

Definition validPriority (a : Assignment) : Prop :=
  priority a = "high"%string \/ priority a = "medium"%string
  \/ priority a = "low"%string.

(** ** Arrays as objects: the store of arrays *)

Module Mem.

(** An array reference, and the store mapping each live array to its
    contents.  The elements are the assignment objects; neither function
    below writes to an element. *)
Abbreviation ref := positive.
Abbreviation heap := (gmap positive (list Assignment)).

Definition M (A : Type) : Type := heap -> A * heap.

Definition ret {A} (a : A) : M A := fun h => (a, h).

Definition bind {A B} (m : M A) (k : A -> M B) : M B :=
  fun h => let '(a, h') := m h in k a h'.

Notation "'let*' x ':=' m 'in' k" := (bind m (fun x => k))
  (at level 10, x name, m at level 100, k at level 200).

(** A new array object holding [xs]. *)
Definition alloc (xs : list Assignment) : M ref :=
  fun h => let r := fresh (dom h) in (r, <[r := xs]> h).

Definition contents (r : ref) : M (list Assignment) :=
  fun h => (default [] (h !! r), h).

(** [[...arr]]: a new array with the same elements. *)
Definition spread (arr : ref) : M ref :=
  let* xs := contents arr in alloc xs.

(** [arr.filter(p)]: a new array; [arr] is not written. *)
Definition filter (p : Assignment -> bool) (arr : ref) : M ref :=
  let* xs := contents arr in alloc (List.filter p xs).

(** [arr.sort(cmp)]: sorts [arr] in place and returns [arr] itself. *)
Definition sort (cmp : Assignment -> Assignment -> option Z) (arr : ref)
  : M ref :=
  fun h => (arr, <[arr := Array_sort cmp (default [] (h !! arr))]> h).

(** [sortAssignments(assignments, sortBy)] *)
Definition sortAssignments (assignments : ref) (sortBy : string) : M ref :=
  let* sorted := spread assignments in
  let* _ := sort (comparator sortBy) sorted in
  ret sorted.

(** [filterAssignments(assignments, filters)] *)
Definition filterAssignments (assignments : ref) (filters : Filters)
  : M ref :=
  let* filtered := spread assignments in
  let* filtered :=
    if truthy (f_courseId filters)
    then filter (byCourse (default "" (f_courseId filters))) filtered
    else ret filtered in
  let* filtered :=
    if statusIs filters "completed" then filter byCompleted filtered
    else if statusIs filters "incomplete"
         then filter byIncomplete filtered
         else ret filtered in
  let* filtered :=
    if truthy (f_search filters)
    then
      let searchLower := toLowerCase (default "" (f_search filters)) in
      filter (bySearch searchLower) filtered
    else ret filtered in
  ret filtered.

(** What a run from the store [h] returns when it builds a new array
    holding [ys]: the reference was not live in [h], it holds [ys] in the
    final store, and every array of [h] still has the contents it had. *)
Definition returnsFresh (h : heap) (ys : list Assignment)
  (res : ref * heap) : Prop :=
  h !! res.1 = None
  /\ res.2 !! res.1 = Some ys
  /\ forall r zs, h !! r = Some zs -> res.2 !! r = Some zs.

End Mem.

(** ** The persistent store behind the API *)

Module Store.

(** Modelled from the spec: the error kinds of the core (section 7); the
    server code that raises them is not part of the sources. *)
Inductive Error :=
| ValidationError
| NotFoundError
| IntegrityError
| StoreError.

(** Modelled from the spec: every operation returns a result or one of
    the errors above. *)
Inductive outcome (A : Type) :=
| Ok (a : A)
| Err (e : Error).
Arguments Ok {A} a.
Arguments Err {A} e.

(** Modelled from the spec: the Course entity of the data model (the
    server side that stores it is not part of the sources); the id is the
    key of the table. *)
Record Course := {
  name : string;
  code : string;
  color : string;
  credits : Z;
  semester : string
}.

(** Modelled from the spec: the stored Assignment entity, with its
    [completed] flag and nullable [completedAt] timestamp. *)
Record Assignment := {
  courseId : Z;
  title : string;
  description : option string;
  dueDate : IsoDate;
  priority : string;
  points : Z;
  completed : bool;
  completedAt : option Z
}.

(** Modelled from the spec: a previous or new value of an audited
    field. *)
Inductive FieldValue :=
| VBool (b : bool)
| VNum (n : Z)
| VText (s : string).

(** Modelled from the spec: the HistoryEntry entity: id, assignment,
    field name changed, previous value, new value, timestamp. *)
Record HistoryEntry := {
  entry_id : Z;
  assignmentId : Z;
  field : string;
  previous : FieldValue;
  current : FieldValue;
  timestamp : Z
}.

(** Modelled from the spec: the three key-addressed tables; the history
    is append-only, kept in order of insertion, and its ids come from a
    counter of the store. *)
Record t := {
  courses : gmap Z Course;
  assignments : gmap Z Assignment;
  history : list HistoryEntry;
  nextHistoryId : Z
}.

(** Modelled from the spec: the write of [completed] and [completedAt]
    that [toggleComplete] performs; every other field is kept. *)
Definition setCompleted (a : Assignment) (flag : bool) (at_ : option Z)
  : Assignment :=
  {| courseId := courseId a; title := title a;
     description := description a; dueDate := dueDate a;
     priority := priority a; points := points a;
     completed := flag; completedAt := at_ |}.

(** Modelled from the spec: [toggleComplete(id)] of the Assignment
    Manager (server side, absent from the sources): flips [completed],
    sets [completedAt] to the current time when becoming true and clears
    it when becoming false, and appends one HistoryEntry for the
    [completed] field, in one atomic step; an absent id is a
    [NotFoundError] and the store stays as it is. *)
Definition toggleComplete (id : Z) (now : Z) (s : t)
  : t * outcome Assignment :=
  match assignments s !! id with
  | None => (s, Err NotFoundError)
  | Some a =>
      let flag := negb (completed a) in
      let a' := setCompleted a flag (if flag then Some now else None) in
      let e :=
        {| entry_id := nextHistoryId s; assignmentId := id;
           field := "completed"; previous := VBool (completed a);
           current := VBool flag; timestamp := now |} in
      ({| courses := courses s;
          assignments := <[id := a']> (assignments s);
          history := history s ++ [e];
          nextHistoryId := nextHistoryId s + 1 |},
       Ok a')
  end.

(** Modelled from the spec: the assignments a course delete takes with
    it, those whose [courseId] references the course. *)
Definition inCourse (s : t) (cid : Z) (aid : Z) : bool :=
  match assignments s !! aid with
  | Some a => courseId a =? cid
  | None => false
  end.

(** Modelled from the spec: [deleteCourse(id)] of the Course Manager
    (server side, absent from the sources): [NotFoundError] if the course
    is absent; otherwise, in one atomic step, deletes the course, every
    assignment referencing it and every history entry referencing those
    assignments. *)
Definition deleteCourse (id : Z) (s : t) : t * outcome unit :=
  match courses s !! id with
  | None => (s, Err NotFoundError)
  | Some _ =>
      ({| courses := delete id (courses s);
          assignments :=
            base.filter (fun ka : Z * Assignment => courseId ka.2 <> id)
                        (assignments s);
          history :=
            List.filter (fun e => negb (inCourse s id (assignmentId e)))
                        (history s);
          nextHistoryId := nextHistoryId s |},
       Ok tt)
  end.

End Store.

(** ** The domain of the text and number models *)

(** Text made of ASCII code units only. *)
Definition isAscii (s : string) : bool :=
  forallb (fun c => (nat_of_ascii c <? 128)%nat) (list_ascii_of_string s).

Definition isAsciiOpt (o : option string) : bool :=
  match o with
  | Some s => isAscii s
  | None => true
  end.

(** The text fields of an assignment are ASCII. *)
Definition asciiAssignment (a : Assignment) : Prop :=
  isAscii (title a) && isAsciiOpt (description a)
  && isAsciiOpt (courseName a) && isAscii (courseCode a) = true.

(** An integer that a Number holds exactly. *)
Definition safeInteger (n : Z) : Prop := - 2 ^ 53 < n < 2 ^ 53.

(** The integer that [parseInt] reads in [s], if any, is a safe one. *)
Definition safeParse (s : string) : Prop :=
  match parseInt s with
  | Some n => safeInteger n
  | None => True
  end.

(** The filters are ASCII text and the course filter reads as a safe
    integer or as no number. *)
Definition domainFilters (f : Filters) : Prop :=
  isAsciiOpt (f_courseId f) && isAsciiOpt (f_status f)
  && isAsciiOpt (f_search f) = true
  /\ safeParse (default "" (f_courseId f)).

(** ** Sample data used in the examples below *)

Definition date_2024_01_10 : IsoDate :=
  {| iso_year := 2024; iso_month := 1; iso_day := 10 |}.
Definition date_2024_01_14 : IsoDate :=
  {| iso_year := 2024; iso_month := 1; iso_day := 14 |}.
Definition date_2024_03_31 : IsoDate :=
  {| iso_year := 2024; iso_month := 3; iso_day := 31 |}.

(** Five hours behind UTC all year (the winter offset of the east coast
    of North America). *)
Definition zone_minus5 : Zone := fixedZone (-5 * msPerHour).

(** Noon of 2024-01-10 on a clock five hours behind UTC. *)
Definition noon_2024_01_10_minus5 : Z :=
  Date_parse date_2024_01_10 + 17 * msPerHour.

(** Central European time around the change of 2024-03-31: one hour ahead
    of UTC before 01:00 UTC of that day, two hours ahead from then on
    (local clocks jump from 02:00 to 03:00). *)
Definition zone_central_europe_2024 : Zone :=
  let change := Date_parse date_2024_03_31 + msPerHour in
  {| offsetAtUTC := fun t =>
       if t <? change then msPerHour else 2 * msPerHour;
     offsetAtLocal := fun t =>
       if t <? change + 2 * msPerHour then msPerHour else 2 * msPerHour |}.

(** Noon of 2024-04-01 on a central European clock (10:00 UTC). *)
Definition noon_2024_04_01_cest : Z :=
  Date_parse date_2024_03_31 + 34 * msPerHour.

(** An essay for the course ENG101 "Writing". *)
Definition essay : Assignment :=
  {| assignment_id := 1; courseId := 7; title := "Essay";
     description := None; dueDate := date_2024_01_10; priority := "high";
     points := 100; completed := false; courseName := Some "Writing"%string;
     courseCode := "ENG101"; courseColor := "blue" |}.

Definition quiz : Assignment :=
  {| assignment_id := 2; courseId := 7; title := "Quiz";
     description := Some "Chapter 3"%string; dueDate := date_2024_01_14;
     priority := "low"; points := 20; completed := true;
     courseName := Some "Writing"%string; courseCode := "ENG101";
     courseColor := "blue" |}.

Definition lab : Assignment :=
  {| assignment_id := 3; courseId := 9; title := "Lab report";
     description := None; dueDate := date_2024_03_31; priority := "medium";
     points := 50; completed := false; courseName := Some "Physics"%string;
     courseCode := "PHY201"; courseColor := "green" |}.

Definition reading : Assignment :=
  {| assignment_id := 4; courseId := 9; title := "Reading";
     description := None; dueDate := date_2024_01_14; priority := "high";
     points := 20; completed := false; courseName := Some "Physics"%string;
     courseCode := "PHY201"; courseColor := "green" |}.

Definition sample_assignments : list Assignment :=
  [quiz; lab; essay; reading].

(** A store with one live array, holding the sample. *)
Definition sample_heap : gmap positive (list Assignment) :=
  {[ 1%positive := sample_assignments ]}.

Definition incompleteOfCourse (cid : string) : Filters :=
  {| f_courseId := Some cid; f_status := Some "incomplete"%string;
     f_search := None |}.

Definition searchOnly (search : string) : Filters :=
  {| f_courseId := None; f_status := None; f_search := Some search |}.

(** A store with two courses, three assignments and one history entry. *)
Definition sample_store : Store.t :=
  let mk cid ttl done :=
    {| Store.courseId := cid; Store.title := ttl;
       Store.description := None; Store.dueDate := date_2024_01_10;
       Store.priority := "high"; Store.points := 10;
       Store.completed := done; Store.completedAt := None |} in
  {| Store.courses :=
       {[ 7 := {| Store.name := "Writing"; Store.code := "ENG101";
                  Store.color := "blue"; Store.credits := 3;
                  Store.semester := "Fall" |};
          9 := {| Store.name := "Physics"; Store.code := "PHY201";
                  Store.color := "green"; Store.credits := 4;
                  Store.semester := "Fall" |} ]};
     Store.assignments :=
       {[ 1 := mk 7 "Essay"%string false;
          2 := mk 7 "Quiz"%string false;
          3 := mk 9 "Lab report"%string false ]};
     Store.history :=
       [ {| Store.entry_id := 1; Store.assignmentId := 3;
            Store.field := "title"; Store.previous := Store.VText "Lab";
            Store.current := Store.VText "Lab report";
            Store.timestamp := 1000 |} ];
     Store.nextHistoryId := 2 |}.

(** ** Calendar fields of a time value *)

(** The year within its 400-year era, from the day within the era. *)
Definition yearOfEra (doe : Z) : Z :=
  (doe - doe / 1460 + doe / 36524 - doe / 146096) / 365.

(** The calendar date of a day number (the inverse of [MakeDay]): the
    year, month (1 to 12) and day of the month that [YearFromTime],
    [MonthFromTime] and [DateFromTime] read off a time value. *)
Definition civil (day : Z) : IsoDate :=
  let z := day + 719468 in
  let era := z / 146097 in
  let doe := z - era * 146097 in
  let yoe := yearOfEra doe in
  let y := yoe + era * 400 in
  let doy := doe - (365 * yoe + yoe / 4 - yoe / 100) in
  let mp := (5 * doy + 2) / 153 in
  let d := doy - (153 * mp + 2) / 5 + 1 in
  let m := if mp <? 10 then mp + 3 else mp - 9 in
  {| iso_year := if m <=? 2 then y + 1 else y; iso_month := m;
     iso_day := d |}.

(** [getFullYear()], [getMonth()] (0 to 11) and [getDate()]: fields of
    the local time. *)
Definition getFullYear (z : Zone) (t : Z) : Z :=
  iso_year (civil (Day (LocalTime z t))).
Definition getMonth (z : Zone) (t : Z) : Z :=
  iso_month (civil (Day (LocalTime z t))) - 1.
Definition getDate (z : Zone) (t : Z) : Z :=
  iso_day (civil (Day (LocalTime z t))).

(** [d.setDate(d.getDate() + 1)]: the same local time of day on the next
    local calendar day. *)
Definition setDateNext (z : Zone) (t : Z) : Z :=
  UTC z (LocalTime z t + msPerDay).

(** [String(n)] for an integer [n] (below 10^21 in size): its decimal
    digits, with a minus sign when negative. *)
Definition Number_toString (n : Z) : string :=
  DecimalString.NilZero.string_of_int (Z.to_int n).

(** The English short month names of [toLocaleDateString]. *)
Definition monthShort (m : Z) : string :=
  if m =? 1 then "Jan" else if m =? 2 then "Feb"
  else if m =? 3 then "Mar" else if m =? 4 then "Apr"
  else if m =? 5 then "May" else if m =? 6 then "Jun"
  else if m =? 7 then "Jul" else if m =? 8 then "Aug"
  else if m =? 9 then "Sep" else if m =? 10 then "Oct"
  else if m =? 11 then "Nov" else "Dec".

(** [date.toLocaleDateString("en-US", { month: "short", day: "numeric",
    year: "numeric" })], as in ["Jan 10, 2024"], for the local date of a
    time value (years of the common era). *)
Definition toLocaleDateString (z : Zone) (t : Z) : string :=
  let c := civil (Day (LocalTime z t)) in
  String.append (monthShort (iso_month c))
    (String.append " "
       (String.append (Number_toString (iso_day c))
          (String.append ", " (Number_toString (iso_year c))))).

(** [formatDate(dateString)]; an empty or absent string is [None]. *)
Definition formatDate (z : Zone) (now : Z) (dateString : option IsoDate)
  : string :=
  match dateString with
  | None => ""
  | Some d =>
      let date := Date_parse d in
      let today := now in
      let tomorrow := setDateNext z today in
      let today := setHours0 z today in
      let tomorrow := setHours0 z tomorrow in
      let date := setHours0 z date in
      if date =? today then "Today"
      else if date =? tomorrow then "Tomorrow"
      else toLocaleDateString z date
  end.

(** [getTodayDate()]: the string [YYYY-MM-DD] of the local date, by its
    fields; [padStart(2, "0")] gives the month and the day their two
    digits. *)
Definition getTodayDate (z : Zone) (now : Z) : IsoDate :=
  let today := now in
  let year := getFullYear z today in
  let month := getMonth z today + 1 in
  let day := getDate z today in
  {| iso_year := year; iso_month := month; iso_day := day |}.

(** The default due date that [openAddAssignmentModal] puts in the form:
    [tomorrow.toISOString().split("T")[0]], the UTC date of the instant
    one local day ahead. *)
Definition defaultDueDate (z : Zone) (now : Z) : IsoDate :=
  let tomorrow := now in
  let tomorrow := setDateNext z tomorrow in
  civil (Day tomorrow).

(** The years for which the produced text is a four-digit ISO date. *)
Definition fourDigitYear (d : IsoDate) : Prop := 1000 <= iso_year d <= 9999.

(** ** Assignment cards *)

(** [parts.filter(Boolean).join(" ")] on strings: the non-empty ones,
    separated by one space. *)
Definition joinTruthy (parts : list string) : string :=
  String.concat " " (List.filter (fun s => negb (String.eqb s "")) parts).

(** The class list, the class of the due date and the suffix of the due
    date that [createAssignmentCard] computes. *)
Definition cardClasses (z : Zone) (now : Z) (a : Assignment) : string :=
  let overdue := isOverdue z now (dueDate a) (completed a) in
  joinTruthy
    [ "assignment-card"%string;
      if completed a then "completed"%string else ""%string;
      if overdue then "overdue"%string else ""%string ].

Definition dueDateClass (z : Zone) (now : Z) (a : Assignment) : string :=
  let dueSoon := isDueSoon z now (dueDate a) (completed a) in
  if dueSoon then "due-date due-soon" else "due-date".

Definition dueSuffix (z : Zone) (now : Z) (a : Assignment) : string :=
  let overdue := isOverdue z now (dueDate a) (completed a) in
  let dueSoon := isDueSoon z now (dueDate a) (completed a) in
  if overdue then " (Overdue)" else if dueSoon then " (Due Soon)" else "".

(** The [order] property of what [getPriorityInfo] returns; a function
    inherited from [Object.prototype] has none. *)
Definition lookedOrder (v : Looked) : option Z :=
  match v with
  | OwnEntry i => Some (pi_order i)
  | Inherited _ => None
  end.

(** ** The list that [renderAssignments] shows *)

(** [x || ""] and [x || "dueDate"] for the value of a form control
    ([None] when the control is not in the page). *)
Definition orElse (x : option string) (d : string) : string :=
  if truthy x then default d x else d.

Inductive View :=
| EmptyState
| Cards (shown : list Assignment).

(** [renderAssignments(assignmentsData)]: nothing happens when the
    container is not in the page; otherwise the filters and the sort key
    are read from the four controls, the data is filtered, then sorted;
    an empty result shows the empty state, else one card per assignment
    in that order. *)
Definition renderAssignments (container : bool)
  (assignmentsData : list Assignment)
  (filterCourse filterStatus searchInput sortSelect : option string)
  : option View :=
  if negb container then None
  else
    let filters :=
      {| f_courseId := Some (orElse filterCourse "");
         f_status := Some (orElse filterStatus "");
         f_search := Some (orElse searchInput "") |} in
    let sortBy := orElse sortSelect "dueDate" in
    let filtered := filterAssignments assignmentsData filters in
    let filtered := sortAssignments filtered sortBy in
    if (length filtered =? 0)%nat then Some EmptyState
    else Some (Cards filtered).

(** The value of the option that [updateCourseFilter] builds for a
    course: [`${course.id}`]. *)
Definition courseOptionValue (id : Z) : string := Number_toString id.

(** ** The completion chart *)

Record Stats := {
  st_total : Z;
  st_completed : Z;
  st_overdue : Z
}.

(** [updateChart(stats)]: the chart is created on first use if its canvas
    is in the page; when there is a chart its three segments (completed,
    incomplete, overdue) are replaced.  The chart is given by the data of
    its one dataset, [None] while there is no chart. *)
Definition initializeChart (canvas : bool) : option (list Z) :=
  if canvas then Some [0; 0; 0] else None.

Definition updateChart (canvas : bool) (completionChart : option (list Z))
  (stats : Stats) : option (list Z) :=
  let completionChart :=
    match completionChart with
    | None => initializeChart canvas
    | Some c => Some c
    end in
  match completionChart with
  | Some _ =>
      let incomplete := st_total stats - st_completed stats
                        - st_overdue stats in
      Some [ st_completed stats;
             if incomplete >? 0 then incomplete else 0;
             st_overdue stats ]
  | None => None
  end.

Definition sumZ (l : list Z) : Z := fold_left Z.add l 0.

(** The percentage in the tooltip label of a segment:
    [total > 0 ? Math.round((value / total) * 100) : 0] with [total] the
    sum of the dataset. *)
Definition tooltipPercentage (value : Z) (data : list Z) : spec_float :=
  let total := sumZ data in
  if total >? 0
  then Number.Math_round
         (Number.mul (Number.div (Number.ofZ value) (Number.ofZ total))
                     (Number.ofZ 100))
  else Number.ofZ 0.

(** The number that a run of decimal digits denotes, from the left, on
    top of the digits already read. *)
Fixpoint digitsValue (acc : Z) (u : Decimal.uint) : Z :=
  match u with
  | Decimal.Nil => acc
  | Decimal.D0 u => digitsValue (acc * 10 + 0) u
  | Decimal.D1 u => digitsValue (acc * 10 + 1) u
  | Decimal.D2 u => digitsValue (acc * 10 + 2) u
  | Decimal.D3 u => digitsValue (acc * 10 + 3) u
  | Decimal.D4 u => digitsValue (acc * 10 + 4) u
  | Decimal.D5 u => digitsValue (acc * 10 + 5) u
  | Decimal.D6 u => digitsValue (acc * 10 + 6) u
  | Decimal.D7 u => digitsValue (acc * 10 + 7) u
  | Decimal.D8 u => digitsValue (acc * 10 + 8) u
  | Decimal.D9 u => digitsValue (acc * 10 + 9) u
  end.

(** The filters that [renderAssignments] builds from three controls. *)
Definition controlFilters (filterCourse filterStatus searchInput
                           : option string) : Filters :=
  {| f_courseId := Some (orElse filterCourse "");
     f_status := Some (orElse filterStatus "");
     f_search := Some (orElse searchInput "") |}.

(** ** Submitting the assignment form *)

(** [s.trim()]: white space removed at both ends, on ASCII text (the
    white space of Unicode beyond ASCII is outside this model; see
    [domainForm]). *)
Fixpoint trimEnd (s : string) : string :=
  match s with
  | EmptyString => EmptyString
  | String c r =>
      let r' := trimEnd r in
      if isWhiteSpace c && String.eqb r' "" then EmptyString
      else String c r'
  end.

Definition trim (s : string) : string := trimEnd (trimStart s).

(** The values of the six controls of the assignment form. *)
Record AssignmentForm := {
  in_course : string;
  in_title : string;
  in_description : string;
  in_duedate : string;
  in_priority : string;
  in_points : string
}.

(** The object [assignmentData] ([None] is NaN). *)
Record AssignmentData := {
  data_courseId : option Z;
  data_title : string;
  data_description : string;
  data_dueDate : string;
  data_priority : string;
  data_points : Z
}.

(** What the handler does, in order. *)
Inductive Effect :=
| PreventDefault
| ShowToast (message type : string)
| UpdateAssignmentAPI (editId : string) (data : AssignmentData)
| CreateAssignmentAPI (data : AssignmentData)
| ConsoleError (message : string)
| RefreshAllData
| CloseModal (modalId : string).

Definition readAssignmentForm (form : AssignmentForm) : AssignmentData :=
  {| data_courseId := parseInt (in_course form);
     data_title := trim (in_title form);
     data_description := trim (in_description form);
     data_dueDate := in_duedate form;
     data_priority := in_priority form;
     (* parseInt(...) || 0: NaN and 0 both give 0 *)
     data_points := default 0 (parseInt (in_points form)) |}.

(** [!assignmentData.courseId]: NaN and 0 are falsy. *)
Definition noCourse (data : AssignmentData) : bool :=
  match data_courseId data with
  | Some n => n =? 0
  | None => true
  end.

(** [handleAssignmentSubmit(e)], with [editId] the value of
    [form.dataset.editId] and [apiOk] telling whether the request
    resolves ([true]) or throws; [refreshAllData] catches its own
    errors. *)
Definition handleAssignmentSubmit (editId : option string)
  (form : AssignmentForm) (apiOk : bool) : list Effect :=
  let assignmentData := readAssignmentForm form in
  PreventDefault ::
  if noCourse assignmentData
  then [ShowToast "Please select a course" "error"]
  else
    let failed :=
      [ ConsoleError "Failed to save assignment:";
        ShowToast "Failed to save assignment. Please try again." "error" ] in
    if truthy editId
    then
      UpdateAssignmentAPI (default "" editId) assignmentData ::
      if apiOk
      then [ ShowToast "Assignment updated successfully" "success";
             RefreshAllData; CloseModal "assignment-modal" ]
      else failed
    else
      CreateAssignmentAPI assignmentData ::
      if apiOk
      then [ ShowToast "Assignment created successfully" "success";
             RefreshAllData; CloseModal "assignment-modal" ]
      else failed.

(** The values of the form are ASCII text, and the course and points
    fields read as safe integers or as no number. *)
Definition domainForm (form : AssignmentForm) : Prop :=
  isAscii (in_course form) && isAscii (in_title form)
  && isAscii (in_description form) && isAscii (in_duedate form)
  && isAscii (in_priority form) && isAscii (in_points form) = true
  /\ safeParse (in_course form) /\ safeParse (in_points form).

(** A form as a user fills it. *)
Definition sample_form : AssignmentForm :=
  {| in_course := "7"; in_title := " Essay "; in_description := "";
     in_duedate := "2024-01-10"; in_priority := "high"; in_points := "x" |}.

Definition isApiCall (e : Effect) : bool :=
  match e with
  | UpdateAssignmentAPI _ _ | CreateAssignmentAPI _ => true
  | _ => false
  end.

Definition isCloseModal (e : Effect) : bool :=
  match e with
  | CloseModal _ => true
  | _ => false
  end.

Definition requestData (e : Effect) : option AssignmentData :=
  match e with
  | UpdateAssignmentAPI _ d | CreateAssignmentAPI d => Some d
  | _ => None
  end.

(** ** Debouncing *)

Module Debounce.

(** A timer set with [setTimeout] and not yet fired or cleared: its id,
    the time from which it may fire, and the arguments its callback
    [later] has captured. *)
Record Timer (A : Type) := {
  timer_id : nat;
  timer_due : Z;
  timer_args : A
}.
Arguments timer_id {A} _.
Arguments timer_due {A} _.
Arguments timer_args {A} _.

(** The state of one debounced function: the variable [timeout], the
    timers pending, the next timer id and the clock; and two logs, most
    recent first, of the calls of the debounced function and of the calls
    of [func], each with its time. *)
Record State (A : Type) := {
  timeout : option nat;
  timers : list (Timer A);
  nextId : nat;
  clock : Z;
  calls : list (Z * A);
  executed : list (Z * A)
}.
Arguments timeout {A} _.
Arguments timers {A} _.
Arguments nextId {A} _.
Arguments clock {A} _.
Arguments calls {A} _.
Arguments executed {A} _.

(** [debounce(func, wait)] returns the function in its initial state. *)
Definition init {A} (t0 : Z) : State A :=
  {| timeout := None; timers := []; nextId := 1; clock := t0;
     calls := []; executed := [] |}.

Definition dropTimer {A} (id : nat) (ts : list (Timer A)) : list (Timer A) :=
  List.filter (fun tm => negb (Nat.eqb (timer_id tm) id)) ts.

(** [clearTimeout(timeout)]; clearing [undefined] does nothing. *)
Definition clearTimeout {A} (id : option nat) (ts : list (Timer A))
  : list (Timer A) :=
  match id with
  | Some i => dropTimer i ts
  | None => ts
  end.

(** A delay below zero counts as zero.  [setTimeout] takes its delay as
    a signed 32-bit integer: the model holds for [wait <= 2^31 - 1], and
    the statements that depend on the length of the delay assume it. *)
Definition delay (wait : Z) : Z := Z.max 0 wait.

(** A call [executedFunction(...args)] at time [t]:
    [clearTimeout(timeout); timeout = setTimeout(later, wait);] *)
Definition call {A} (wait t : Z) (args : A) (s : State A) : State A :=
  let ts := clearTimeout (timeout s) (timers s) in
  let id := nextId s in
  {| timeout := Some id;
     timers := ts ++ [{| timer_id := id; timer_due := t + delay wait;
                         timer_args := args |}];
     nextId := S id; clock := t;
     calls := (t, args) :: calls s; executed := executed s |}.

(** The timer [tm] fires at time [t] and runs [later]:
    [clearTimeout(timeout); func(...args);] *)
Definition fire {A} (t : Z) (tm : Timer A) (s : State A) : State A :=
  let ts := dropTimer (timer_id tm) (timers s) in
  let ts := clearTimeout (timeout s) ts in
  {| timeout := timeout s; timers := ts; nextId := nextId s; clock := t;
     calls := calls s; executed := (t, timer_args tm) :: executed s |}.

(** One step: a call at any later time, or the firing of a pending timer
    that is due. *)
Inductive step {A} (wait : Z) : State A -> State A -> Prop :=
| step_call (t : Z) (args : A) (s : State A) :
    clock s <= t -> step wait s (call wait t args s)
| step_fire (t : Z) (tm : Timer A) (s : State A) :
    clock s <= t -> In tm (timers s) -> timer_due tm <= t ->
    step wait s (fire t tm s).

Inductive reachable {A} (wait t0 : Z) : State A -> Prop :=
| reach_init : reachable wait t0 (init t0)
| reach_step (s s' : State A) :
    reachable wait t0 s -> step wait s s' -> reachable wait t0 s'.

(** What holds in every reachable state (see the properties below): at
    most one timer is pending, and it belongs to the most recent call;
    the logs are ordered in time; every call of [func] serves the call
    that was the most recent one, at least the delay after it; and when
    no timer is pending the most recent call has been served. *)
Definition Inv {A} (wait : Z) (s : State A) : Prop :=
  (timers s = []
   \/ exists tm rest,
        timers s = [tm] /\ timeout s = Some (timer_id tm)
        /\ calls s = (timer_due tm - delay wait, timer_args tm) :: rest)
  /\ (forall tc x, In (tc, x) (calls s) -> tc <= clock s)
  /\ (forall te x, In (te, x) (executed s) -> te <= clock s)
  /\ StronglySorted (fun p q : Z * A => q.1 <= p.1) (calls s)
  /\ (forall te x,
        In (te, x) (executed s) ->
        exists tc,
          In (tc, x) (calls s) /\ tc + delay wait <= te
          /\ forall tc' x', In (tc', x') (calls s) -> tc' <= tc \/ te <= tc')
  /\ (length (executed s) + length (timers s) <= length (calls s))%nat
  /\ (timers s = [] ->
      match calls s with
      | [] => executed s = []
      | (_, x) :: _ => exists te rest, executed s = (te, x) :: rest
      end).

End Debounce.

(** ** Reading a percentage *)

(** The integer that a Number holds, when it holds one. *)
Definition integerValue (x : spec_float) : option Z :=
  match x with
  | S754_zero _ => Some 0
  | S754_finite s m e =>
      let sm := if s then Z.neg m else Z.pos m in
      if 0 <=? e then Some (sm * 2 ^ e)
      else if sm mod 2 ^ (- e) =? 0 then Some (sm / 2 ^ (- e))
      else None
  | _ => None
  end.

(** The checks of the percentage of [completed] out of [total]: an
    integer from 0 to 100, within one of the exact rounded rate, 100 for
    all completed and 0 for none. *)
Definition progressInRange (completed total : Z) : bool :=
  match integerValue (calculateProgress completed total) with
  | Some p =>
      (0 <=? p) && (p <=? 100)
      && (Z.abs (p - spec_completionRate completed total) <=? 1)
      && implb (completed =? total) (p =? 100)
      && implb (completed =? 0) (p =? 0)
  | None => false
  end.

(** All pairs [completed <= total] with [1 <= total <= n]. *)
Definition countPairs (n : nat) : list (Z * Z) :=
  List.flat_map
    (fun t => List.map (fun c => (Z.of_nat c, Z.of_nat t))
                (List.seq 0 (S t)))
    (List.seq 1 n).

(** * Properties *)

(** ** Progress percentage *)

Example calculateProgress_3_4 : calculateProgress 3 4 = Number.ofZ 75.
Proof. vm_compute. reflexivity. Qed.

Example calculateProgress_0_0 : calculateProgress 0 0 = Number.ofZ 0.
Proof. reflexivity. Qed.

(** No division is attempted when the total is zero. *)
Lemma calculateProgress_total_zero (completed : Z) :
  calculateProgress completed 0 = Number.ofZ 0.
Proof. reflexivity. Qed.

(** [spec_completionRate] is the integer nearest to [100 c / t], the
    upper one on a tie: [r - 1/2 <= 100 c / t < r + 1/2]. *)
Lemma spec_completionRate_nearest (c t : Z) :
  0 < t ->
  2 * t * spec_completionRate c t - t <= 200 * c
  < 2 * t * spec_completionRate c t + t.
Proof.
  intros Ht. unfold spec_completionRate.
  destruct (Z.eqb_spec t 0) as [-> | _]; [lia |].
  pose proof (Z.div_mod (2 * (100 * c) + t) (2 * t)) as Hd.
  pose proof (Z.mod_pos_bound (2 * (100 * c) + t) (2 * t)) as Hm.
  lia.
Qed.

(** Up to a total of 40 the pair (23, 40) is the only one on which the
    code and the stated rate differ. *)
Lemma rateMismatches_40 : rateMismatches 40 = [(23, 40)].
Proof. vm_compute. reflexivity. Qed.

(** C3 (the code at the failing input): for 23 completed of 40 the
    binary64 quotient [23 / 40] times [100] is [57.49999999999999], which
    [Math.round] takes to 57, while the nearest integer to
    [100 * 23 / 40 = 57.5] is 58. *)
Theorem calculateProgress_23_40 :
  Number.mul (Number.div (Number.ofZ 23) (Number.ofZ 40)) (Number.ofZ 100)
  = S754_finite false 8092405580431359 (-47)
  /\ calculateProgress 23 40 = Number.ofZ 57
  /\ spec_completionRate 23 40 = 58.
Proof. vm_compute. repeat split; reflexivity. Qed.

(** ** Priority display info *)

Example getPriorityInfo_high :
  getPriorityInfo (Some "high"%string) = OwnEntry info_high.
Proof. reflexivity. Qed.

Example getPriorityInfo_undefined :
  getPriorityInfo None = OwnEntry info_medium /\ pi_order info_medium = 2.
Proof. split; reflexivity. Qed.

(** A key that is neither an own property of [priorities] nor a member
    of [Object.prototype] falls through to the medium entry. *)
Lemma getPriorityInfo_fallback (p : string) :
  p <> "high"%string -> p <> "medium"%string -> p <> "low"%string ->
  ~ In p Object_prototype_keys ->
  getPriorityInfo (Some p) = OwnEntry info_medium.
Proof.
  intros Hh Hm Hl Hk. unfold getPriorityInfo, priorities_get, priorities_own.
  cbn [ToPropertyKey].
  destruct (String.eqb_spec p "high"); [congruence |].
  destruct (String.eqb_spec p "medium"); [congruence |].
  destruct (String.eqb_spec p "low"); [congruence |].
  destruct (existsb (String.eqb p) Object_prototype_keys) eqn:E;
    [| reflexivity].
  apply existsb_exists in E as [k [Hin Heq]].
  apply String.eqb_eq in Heq. subst k. contradiction.
Qed.

(** C10 (the code at the failing input): the string ["constructor"] is
    outside high, medium and low, yet the lookup finds the member that
    [priorities] inherits from [Object.prototype] and returns it in place
    of the medium entry. *)
Theorem getPriorityInfo_constructor :
  priorities_own "constructor" = None
  /\ getPriorityInfo (Some "constructor"%string) = Inherited "constructor"
  /\ getPriorityInfo (Some "constructor"%string) <> OwnEntry info_medium.
Proof. repeat split. discriminate. Qed.

(** ** Dates *)

Example MakeDay_epoch :
  MakeDay {| iso_year := 1970; iso_month := 1; iso_day := 1 |} = 0.
Proof. reflexivity. Qed.

Example MakeDay_2024_01_10 : MakeDay date_2024_01_10 = 19732.
Proof. reflexivity. Qed.

Example MakeDay_2024_03_31 : MakeDay date_2024_03_31 = 19813.
Proof. reflexivity. Qed.

(** Within a month the day number advances with the day of the month. *)
Lemma MakeDay_next_day (y m d : Z) :
  MakeDay {| iso_year := y; iso_month := m; iso_day := d + 1 |}
  = MakeDay {| iso_year := y; iso_month := m; iso_day := d |} + 1.
Proof. unfold MakeDay. cbn [iso_year iso_month iso_day]. lia. Qed.

Lemma Math_ceil_div_mul (k m : Z) : 0 < m -> Math_ceil_div (k * m) m = k.
Proof.
  intros Hm. unfold Math_ceil_div.
  replace (- (k * m)) with ((- k) * m) by ring.
  rewrite Z.div_mul by lia. lia.
Qed.

Lemma setHours0_fixed (o t : Z) :
  setHours0 (fixedZone o) t = Day (t + o) * msPerDay - o.
Proof. reflexivity. Qed.

(** In a zone with a constant offset the day count is the difference of
    the two local day numbers. *)
Lemma daysUntilDue_fixed (o now : Z) (d : IsoDate) :
  daysUntilDue (fixedZone o) now d
  = localDay (fixedZone o) (Date_parse d) - localDay (fixedZone o) now.
Proof.
  unfold daysUntilDue, localDay, LocalTime. rewrite !setHours0_fixed. simpl.
  replace (Day (Date_parse d + o) * msPerDay - o
           - (Day (now + o) * msPerDay - o))
    with ((Day (Date_parse d + o) - Day (now + o)) * msPerDay) by ring.
  change (1000 * 60 * 60 * 24) with msPerDay.
  apply Math_ceil_div_mul. reflexivity.
Qed.

(** East of Greenwich (offset in [0, 24h)) the parsed due date falls on
    its own calendar day ... *)
Lemma localDay_parse_east (o : Z) (d : IsoDate) :
  0 <= o < msPerDay -> localDay (fixedZone o) (Date_parse d) = MakeDay d.
Proof.
  intros Ho. unfold localDay, LocalTime, Date_parse, Day. simpl.
  symmetry. apply Z.div_unique with (r := o); unfold msPerDay in *; lia.
Qed.

(** ... and west of it (offset in [-24h, 0)) on the day before. *)
Lemma localDay_parse_west (o : Z) (d : IsoDate) :
  - msPerDay <= o < 0 -> localDay (fixedZone o) (Date_parse d) = MakeDay d - 1.
Proof.
  intros Ho. unfold localDay, LocalTime, Date_parse, Day. simpl.
  symmetry. apply Z.div_unique with (r := o + msPerDay);
    unfold msPerDay in *; lia.
Qed.

Lemma isOverdue_completed (z : Zone) (now : Z) (d : IsoDate) :
  isOverdue z now d true = false.
Proof. reflexivity. Qed.

Lemma isDueSoon_completed (z : Zone) (now : Z) (d : IsoDate) :
  isDueSoon z now d true = false.
Proof. reflexivity. Qed.

(** Due soon excludes overdue and completed, in every zone. *)
Lemma isDueSoon_not_overdue (z : Zone) (now : Z) (d : IsoDate) (c : bool) :
  isDueSoon z now d c = true -> isOverdue z now d c = false /\ c = false.
Proof.
  unfold isDueSoon, isOverdue. destruct c; [discriminate |].
  intros H. apply andb_prop in H as [H1 _]. split; [| reflexivity].
  apply Z.ltb_ge. apply Z.geb_le in H1. exact H1.
Qed.

(** In a zone with a constant offset east of Greenwich, overdue is: not
    completed and due date before the local calendar date. *)
Lemma isOverdue_east (o now : Z) (d : IsoDate) (c : bool) :
  0 <= o < msPerDay ->
  isOverdue (fixedZone o) now d c = true
  <-> c = false /\ MakeDay d < localDay (fixedZone o) now.
Proof.
  intros Ho. unfold isOverdue. destruct c.
  - split; [discriminate | intros [? _]; discriminate].
  - rewrite daysUntilDue_fixed, localDay_parse_east by exact Ho.
    rewrite Z.ltb_lt. split; [intros; split; [reflexivity | lia] | lia].
Qed.

Lemma isDueSoon_east (o now : Z) (d : IsoDate) (c : bool) :
  0 <= o < msPerDay ->
  isDueSoon (fixedZone o) now d c = true
  <-> c = false /\ 0 <= MakeDay d - localDay (fixedZone o) now <= 3.
Proof.
  intros Ho. unfold isDueSoon. destruct c.
  - split; [discriminate | intros [? _]; discriminate].
  - rewrite daysUntilDue_fixed, localDay_parse_east by exact Ho.
    rewrite andb_true_iff, Z.geb_le, Z.leb_le.
    split; [intros; split; [reflexivity | lia] | lia].
Qed.

(** West of Greenwich both tests look at the day before the due date. *)
Lemma isOverdue_west (o now : Z) (d : IsoDate) :
  - msPerDay <= o < 0 ->
  isOverdue (fixedZone o) now d false = true
  <-> MakeDay d - 1 < localDay (fixedZone o) now.
Proof.
  intros Ho. unfold isOverdue.
  rewrite daysUntilDue_fixed, localDay_parse_west by exact Ho.
  rewrite Z.ltb_lt. lia.
Qed.

Lemma isDueSoon_west (o now : Z) (d : IsoDate) :
  - msPerDay <= o < 0 ->
  isDueSoon (fixedZone o) now d false = true
  <-> 1 <= MakeDay d - localDay (fixedZone o) now <= 4.
Proof.
  intros Ho. unfold isDueSoon.
  rewrite daysUntilDue_fixed, localDay_parse_west by exact Ho.
  rewrite andb_true_iff, Z.geb_le, Z.leb_le. lia.
Qed.

(** C1 (the code at the failing input): on a clock five hours behind UTC,
    at noon of 2024-01-10, an open assignment due 2024-01-10 is reported
    overdue although its due date is the current calendar date. *)
Theorem isOverdue_due_today_behind_UTC :
  localDay zone_minus5 noon_2024_01_10_minus5 = MakeDay date_2024_01_10
  /\ daysUntilDue zone_minus5 noon_2024_01_10_minus5 date_2024_01_10 = -1
  /\ isOverdue zone_minus5 noon_2024_01_10_minus5 date_2024_01_10 false
     = true.
Proof. repeat split; reflexivity. Qed.

(** Across the spring change of clocks the two local midnights are 23
    hours apart and [Math.ceil] rounds the day count to zero: an open
    assignment due the day before is not reported overdue. *)
Lemma isOverdue_due_yesterday_spring_forward :
  localDay zone_central_europe_2024 noon_2024_04_01_cest
  = MakeDay date_2024_03_31 + 1
  /\ isOverdue zone_central_europe_2024 noon_2024_04_01_cest
       date_2024_03_31 false = false.
Proof. split; reflexivity. Qed.

(** C2 (the code at the failing inputs): on the same clock, an open
    assignment due today (0 days ahead) is not due soon, and one due in 4
    days is. *)
Theorem isDueSoon_shifted_behind_UTC :
  (MakeDay date_2024_01_10
   - localDay zone_minus5 noon_2024_01_10_minus5 = 0
   /\ isDueSoon zone_minus5 noon_2024_01_10_minus5 date_2024_01_10 false
      = false)
  /\ (MakeDay date_2024_01_14
      - localDay zone_minus5 noon_2024_01_10_minus5 = 4
      /\ isDueSoon zone_minus5 noon_2024_01_10_minus5 date_2024_01_14 false
         = true).
Proof. repeat split; reflexivity. Qed.

(** ** Strings *)

Lemma startsWith_append (s t : string) :
  startsWith s t = true <-> exists b, s = String.append t b.
Proof.
  revert s. induction t as [| c t IH]; intros s; simpl.
  - split; [intros _; exists s; reflexivity | reflexivity].
  - destruct s as [| d s].
    + split; [discriminate | intros [b Hb]; discriminate].
    + rewrite andb_true_iff, Ascii.eqb_eq, IH. split.
      * intros [-> [b Hb]]. exists b. now rewrite Hb.
      * intros [b Hb]. injection Hb as -> Hs. split; [reflexivity |].
        exists b. exact Hs.
Qed.

(** [includes] decides the substring relation. *)
Lemma includes_occursIn (s t : string) :
  includes s t = true <-> occursIn t s.
Proof.
  unfold occursIn. induction s as [| c s IH].
  - simpl. rewrite orb_false_r, startsWith_append.
    split.
    + intros [b Hb]. exists EmptyString, b. exact Hb.
    + intros [a [b Hab]]. destruct a; [exists b; exact Hab | discriminate].
  - cbn [includes]. rewrite orb_true_iff, startsWith_append, IH.
    split.
    + intros [[b Hb] | [a [b Hab]]].
      * exists EmptyString, b. exact Hb.
      * exists (String c a), b. simpl. now rewrite Hab.
    + intros [a [b Hab]]. destruct a as [| c' a].
      * left. exists b. exact Hab.
      * right. simpl in Hab. injection Hab as _ Hs. exists a, b. exact Hs.
Qed.

Lemma toLowerCase_nonempty (s : string) :
  s <> EmptyString -> toLowerCase s <> EmptyString.
Proof. destruct s; [congruence | discriminate]. Qed.

Lemma occursIn_empty (t : string) :
  t <> EmptyString -> ~ occursIn t EmptyString.
Proof.
  intros Ht [a [b Hab]]. destruct a as [| c a]; [| discriminate].
  destruct t as [| c t]; [congruence | discriminate].
Qed.

Lemma truthy_Some (s : string) : s <> EmptyString -> truthy (Some s) = true.
Proof. destruct s; [congruence | reflexivity]. Qed.

Example parseInt_examples :
  parseInt "7" = Some 7 /\ parseInt " 42abc" = Some 42
  /\ parseInt "-3" = Some (-3) /\ parseInt "0x1F" = Some 31
  /\ parseInt "abc" = None /\ parseInt "" = None /\ parseInt "0x" = None.
Proof. repeat split; reflexivity. Qed.

Example toLowerCase_example :
  toLowerCase "ENG101 Essay" = "eng101 essay"%string.
Proof. reflexivity. Qed.

Example includes_examples :
  includes "lab report" "rep" = true /\ includes "lab report" "" = true
  /\ includes "lab" "lab report" = false.
Proof. repeat split; reflexivity. Qed.

(** ** Filtering *)

Lemma filter_filter {A} (p q : A -> bool) (l : list A) :
  List.filter q (List.filter p l) = List.filter (fun a => p a && q a) l.
Proof.
  induction l as [| x l IH]; [reflexivity |]. simpl.
  destruct (p x); simpl; [destruct (q x) |]; now rewrite IH.
Qed.

Lemma filter_true {A} (l : list A) : List.filter (fun _ => true) l = l.
Proof. induction l as [| x l IH]; [reflexivity |]. simpl. now rewrite IH. Qed.

Lemma filter_ext_bool {A} (p q : A -> bool) (l : list A) :
  (forall a, p a = q a) -> List.filter p l = List.filter q l.
Proof.
  intros H. induction l as [| x l IH]; [reflexivity |].
  simpl. now rewrite H, IH.
Qed.

(** The three steps of [filterAssignments] are one pass with the
    conjunction of the three criteria. *)
Lemma filterAssignments_criteria (l : list Assignment) (f : Filters) :
  filterAssignments l f
  = List.filter
      (fun a => courseCriterion f a && statusCriterion f a
                && searchCriterion f a) l.
Proof.
  unfold filterAssignments, courseCriterion, statusCriterion, searchCriterion.
  destruct (truthy (f_courseId f));
    destruct (statusIs f "completed");
    destruct (statusIs f "incomplete");
    destruct (truthy (f_search f));
    rewrite ?filter_filter;
    first
      [ apply filter_ext_bool; intros a;
        rewrite ?andb_true_r, ?andb_true_l, ?andb_assoc; reflexivity
      | symmetry; apply filter_true ].
Qed.

Lemma filterAssignments_search_step (l : list Assignment) (f : Filters) :
  filterAssignments l f
  = if truthy (f_search f)
    then List.filter (bySearch (toLowerCase (default "" (f_search f))))
           (filterAssignments l (withSearch f None))
    else filterAssignments l (withSearch f None).
Proof.
  unfold filterAssignments, withSearch, statusIs; simpl.
  destruct (truthy (f_search f)); reflexivity.
Qed.

(** What the search callback tests, for a non-empty lower-cased search
    string. *)
Lemma fieldIncludes_occursIn (x : option string) (sl : string) :
  sl <> EmptyString ->
  fieldIncludes x sl = true
  <-> exists s, x = Some s /\ occursIn sl (toLowerCase s).
Proof.
  intros Hsl. destruct x as [s |]; simpl.
  - rewrite andb_true_iff, includes_occursIn. split.
    + intros [_ H]. exists s. split; [reflexivity | exact H].
    + intros [s' [Hs H]]. injection Hs as <-. split; [| exact H].
      destruct s; [| reflexivity].
      exfalso. exact (occursIn_empty sl Hsl H).
  - split; [discriminate | intros [s [Hs _]]; discriminate].
Qed.

Lemma bySearch_occursIn (sl : string) (a : Assignment) :
  sl <> EmptyString ->
  bySearch sl a = true
  <-> occursIn sl (toLowerCase (title a))
      \/ (exists d, description a = Some d /\ occursIn sl (toLowerCase d))
      \/ (exists n, courseName a = Some n /\ occursIn sl (toLowerCase n)).
Proof.
  intros Hsl. unfold bySearch.
  rewrite !orb_true_iff, includes_occursIn,
    !(fieldIncludes_occursIn _ _ Hsl). tauto.
Qed.

Lemma filterAssignments_In (l : list Assignment) (f : Filters)
  (a : Assignment) :
  In a (filterAssignments l f)
  <-> In a l /\ courseCriterion f a = true /\ statusCriterion f a = true
      /\ searchCriterion f a = true.
Proof.
  rewrite filterAssignments_criteria, filter_In, !andb_true_iff. tauto.
Qed.

Lemma statusCriterion_other (c st s : option string) (a : Assignment) :
  st <> Some "completed"%string -> st <> Some "incomplete"%string ->
  statusCriterion {| f_courseId := c; f_status := st; f_search := s |} a
  = true.
Proof.
  intros H1 H2. unfold statusCriterion, statusIs. simpl.
  destruct st as [v |]; [| reflexivity].
  destruct (String.eqb_spec v "completed") as [-> | _]; [congruence |].
  destruct (String.eqb_spec v "incomplete") as [-> | _]; [congruence |].
  reflexivity.
Qed.

Lemma byCourse_eq (cid : string) (X : Z) (a : Assignment) :
  parseInt cid = Some X -> byCourse cid a = true <-> courseId a = X.
Proof. intros H. unfold byCourse. rewrite H. apply Z.eqb_eq. Qed.

Example filterAssignments_sample_course_incomplete :
  filterAssignments sample_assignments (incompleteOfCourse "9")
  = [lab; reading].
Proof. reflexivity. Qed.

Example filterAssignments_sample_search :
  filterAssignments sample_assignments (searchOnly "PHYS") = [lab; reading]
  /\ filterAssignments sample_assignments (searchOnly "chapter") = [quiz]
  /\ filterAssignments sample_assignments (searchOnly "phy201") = [].
Proof. repeat split; reflexivity. Qed.

(** C4 (as stated, refuted): an assignment whose course code alone
    contains the search string is dropped by the filter, although the
    stated criterion (which counts the course code) keeps it. *)
Lemma search_ignores_course_code :
  ~ (forall (l : list Assignment) (search : string),
        search <> EmptyString ->
        filterAssignments l (searchOnly search)
        = List.filter (spec_searchMatch search) l).
Proof.
  intros H. specialize (H [essay] "eng101"%string).
  assert (Hne : "eng101"%string <> EmptyString) by discriminate.
  specialize (H Hne). vm_compute in H. discriminate H.
Qed.

(** C4 (amended): on ASCII text, a non-empty search string keeps, among
    the assignments that pass the other criteria, exactly those whose
    lower-cased title, description or course name contains the
    lower-cased search string, in their input order; an absent or empty
    search string restricts nothing. *)
Theorem filterAssignments_search (l : list Assignment) (f : Filters) :
  List.Forall asciiAssignment l -> domainFilters f ->
  (forall search : string,
      f_search f = Some search -> search <> EmptyString ->
      filterAssignments l f
      = List.filter (bySearch (toLowerCase search))
          (filterAssignments l (withSearch f None))
      /\ forall a,
          bySearch (toLowerCase search) a = true
          <-> occursIn (toLowerCase search) (toLowerCase (title a))
              \/ (exists d, description a = Some d
                            /\ occursIn (toLowerCase search) (toLowerCase d))
              \/ (exists n, courseName a = Some n
                            /\ occursIn (toLowerCase search) (toLowerCase n)))
  /\ (f_search f = None \/ f_search f = Some EmptyString ->
      filterAssignments l f = filterAssignments l (withSearch f None)).
Proof.
  intros _ _. split.
  - intros search Hs Hne. split.
    + rewrite filterAssignments_search_step, Hs, truthy_Some by exact Hne.
      reflexivity.
    + intros a. apply bySearch_occursIn. now apply toLowerCase_nonempty.
  - intros H. rewrite filterAssignments_search_step.
    destruct H as [-> | ->]; reflexivity.
Qed.

Lemma sample_assignments_ascii : List.Forall asciiAssignment sample_assignments.
Proof. repeat constructor. Defined.

Lemma filterAssignments_search_witness :
  List.Forall asciiAssignment sample_assignments
  /\ domainFilters (searchOnly "PHYS")
  /\ filterAssignments sample_assignments (searchOnly "PHYS")
     = List.filter (bySearch (toLowerCase "PHYS"))
         (filterAssignments sample_assignments
            (withSearch (searchOnly "PHYS") None)).
Proof.
  assert (Hd : domainFilters (searchOnly "PHYS")) by (split; reflexivity).
  split; [exact sample_assignments_ascii |]. split; [exact Hd |].
  destruct (filterAssignments_search sample_assignments (searchOnly "PHYS")
              sample_assignments_ascii Hd) as [H _].
  apply (H "PHYS"%string); [reflexivity | discriminate].
Defined.

(** C5: on ASCII text and with a course filter that reads as a safe
    integer (or as no number), the three criteria compose with AND;
    status "completed" keeps exactly the completed assignments,
    "incomplete" exactly the others, any other or absent status restricts
    nothing; a course filter with a status filter returns only the
    assignments matching both (none when the course filter reads as no
    number). *)
Theorem filterAssignments_and (l : list Assignment) :
  List.Forall asciiAssignment l ->
  (forall f a,
      domainFilters f ->
      In a (filterAssignments l f)
      <-> In a l /\ courseCriterion f a = true
          /\ statusCriterion f a = true /\ searchCriterion f a = true)
  /\ (forall f,
        domainFilters f ->
        filterAssignments l f
        = List.filter
            (fun a => courseCriterion f a && statusCriterion f a
                      && searchCriterion f a) l)
  /\ filterAssignments l
       {| f_courseId := None; f_status := Some "completed"%string;
          f_search := None |}
     = List.filter completed l
  /\ filterAssignments l
       {| f_courseId := None; f_status := Some "incomplete"%string;
          f_search := None |}
     = List.filter (fun a => negb (completed a)) l
  /\ (forall c s a,
        domainFilters
          {| f_courseId := c; f_status := Some "completed"%string;
             f_search := s |} ->
        In a (filterAssignments l
                {| f_courseId := c; f_status := Some "completed"%string;
                   f_search := s |})
        <-> In a (filterAssignments l
                    {| f_courseId := c; f_status := None; f_search := s |})
            /\ completed a = true)
  /\ (forall c s a,
        domainFilters
          {| f_courseId := c; f_status := Some "incomplete"%string;
             f_search := s |} ->
        In a (filterAssignments l
                {| f_courseId := c; f_status := Some "incomplete"%string;
                   f_search := s |})
        <-> In a (filterAssignments l
                    {| f_courseId := c; f_status := None; f_search := s |})
            /\ completed a = false)
  /\ (forall c st s,
        domainFilters {| f_courseId := c; f_status := st; f_search := s |} ->
        st <> Some "completed"%string -> st <> Some "incomplete"%string ->
        filterAssignments l
          {| f_courseId := c; f_status := st; f_search := s |}
        = filterAssignments l
            {| f_courseId := c; f_status := None; f_search := s |})
  /\ (forall cid X a,
        cid <> EmptyString -> isAscii cid = true ->
        parseInt cid = Some X -> safeInteger X ->
        In a (filterAssignments l
                {| f_courseId := Some cid;
                   f_status := Some "incomplete"%string;
                   f_search := None |})
        <-> In a l /\ courseId a = X /\ completed a = false)
  /\ (forall cid st s,
        cid <> EmptyString -> isAscii cid = true -> parseInt cid = None ->
        filterAssignments l
          {| f_courseId := Some cid; f_status := st; f_search := s |}
        = []).
Proof.
  intros _.
  split; [intros f a _; apply filterAssignments_In |].
  split; [intros f _; apply filterAssignments_criteria |].
  split; [reflexivity |].
  split; [reflexivity |].
  split.
  { intros c s a _. rewrite !filterAssignments_In.
    unfold courseCriterion, statusCriterion, searchCriterion, statusIs,
      byCompleted; simpl. tauto. }
  split.
  { intros c s a _. rewrite !filterAssignments_In.
    unfold courseCriterion, statusCriterion, searchCriterion, statusIs,
      byIncomplete; simpl. rewrite negb_true_iff. tauto. }
  split.
  { intros c st s _ H1 H2. rewrite !filterAssignments_criteria.
    apply filter_ext_bool. intros a.
    rewrite (statusCriterion_other c st s a H1 H2). reflexivity. }
  split.
  { intros cid X a Hne _ HX _. rewrite filterAssignments_In.
    unfold courseCriterion, statusCriterion, searchCriterion, statusIs,
      byIncomplete; cbn [f_courseId f_status f_search].
    change (default EmptyString (Some cid)) with cid.
    change (String.eqb "incomplete" "completed") with false.
    change (String.eqb "incomplete" "incomplete") with true.
    cbv iota.
    rewrite (truthy_Some cid Hne), (byCourse_eq cid X a HX), negb_true_iff.
    tauto. }
  intros cid st s Hne _ HN.
  destruct (filterAssignments l _) as [| a r] eqn:E; [reflexivity |].
  assert (Hin : In a (filterAssignments l
                        {| f_courseId := Some cid; f_status := st;
                           f_search := s |}))
    by (rewrite E; left; reflexivity).
  apply filterAssignments_In in Hin as (_ & Hc & _).
  unfold courseCriterion in Hc. cbn [f_courseId] in Hc.
  rewrite (truthy_Some cid Hne) in Hc.
  change (default EmptyString (Some cid)) with cid in Hc.
  unfold byCourse in Hc. rewrite HN in Hc. discriminate.
Qed.

Lemma filterAssignments_and_witness :
  List.Forall asciiAssignment sample_assignments
  /\ forall a,
       In a (filterAssignments sample_assignments (incompleteOfCourse "9"))
       <-> In a sample_assignments /\ courseId a = 9 /\ completed a = false.
Proof.
  split; [exact sample_assignments_ascii |].
  intros a.
  destruct (filterAssignments_and sample_assignments sample_assignments_ascii)
    as (_ & _ & _ & _ & _ & _ & _ & H & _).
  apply (H "9"%string 9 a); [discriminate | reflexivity | reflexivity |].
  split; reflexivity.
Defined.

(** ** Sorting *)

Section SortByKey.

Context {A : Type}.
Variable cmp : A -> A -> option Z.
Variable key : A -> Z.
Variable P : A -> Prop.

(** The comparator is the difference of the keys on the elements at
    hand. *)
Hypothesis cmp_key : forall a b, P a -> P b -> cmp a b = Some (key a - key b).

Lemma sort_insert_perm (x : A) (l : list A) :
  Permutation (sort_insert cmp x l) (x :: l).
Proof.
  induction l as [| y r IH]; simpl; [reflexivity |].
  destruct (SortCompare cmp x y <=? 0); [reflexivity |].
  rewrite IH. apply perm_swap.
Qed.

Lemma Array_sort_perm (l : list A) : Permutation (Array_sort cmp l) l.
Proof.
  induction l as [| x r IH]; simpl; [reflexivity |].
  rewrite sort_insert_perm. now constructor.
Qed.

Lemma Array_sort_Forall (l : list A) :
  List.Forall P l -> List.Forall P (Array_sort cmp l).
Proof.
  intros H. eapply Permutation_Forall; [| exact H].
  symmetry. apply Array_sort_perm.
Qed.

Lemma sort_insert_sorted (x : A) (l : list A) :
  P x -> List.Forall P l ->
  StronglySorted (keyLe key) l ->
  StronglySorted (keyLe key) (sort_insert cmp x l).
Proof.
  intros Px HP Hs. induction Hs as [| y r Hr IH Hy]; simpl.
  - constructor; constructor.
  - inversion HP as [| ? ? Py HPr]; subst.
    unfold SortCompare. rewrite (cmp_key x y Px Py). simpl.
    destruct (Z.leb_spec (key x - key y) 0) as [Hle | Hgt].
    + constructor; [constructor; assumption |].
      constructor; [unfold keyLe; lia |].
      eapply List.Forall_impl; [| exact Hy].
      unfold keyLe. intros a Ha. lia.
    + constructor; [apply IH; assumption |].
      eapply Permutation_Forall; [symmetry; apply sort_insert_perm |].
      constructor; [unfold keyLe; lia | exact Hy].
Qed.

(** The result is in ascending key order ... *)
Lemma Array_sort_sorted (l : list A) :
  List.Forall P l -> StronglySorted (keyLe key) (Array_sort cmp l).
Proof.
  induction l as [| x r IH]; intros HP; simpl; [constructor |].
  inversion HP as [| ? ? Px HPr]; subst.
  apply sort_insert_sorted; [assumption | | apply IH; assumption].
  apply Array_sort_Forall. assumption.
Qed.

Lemma sort_insert_stable (x : A) (l : list A) (k : Z) :
  P x -> List.Forall P l ->
  List.filter (hasKey key k) (sort_insert cmp x l)
  = List.filter (hasKey key k) (x :: l).
Proof.
  intros Px HP. induction HP as [| y r Py HPr IH]; [reflexivity |].
  cbn [sort_insert]. unfold SortCompare. rewrite (cmp_key x y Px Py).
  cbn [default from_option id].
  destruct (Z.leb_spec (key x - key y) 0) as [Hle | Hgt]; [reflexivity |].
  cbn [List.filter] in *. rewrite IH. unfold hasKey.
  destruct (Z.eqb_spec (key y) k) as [Hy | Hy];
    destruct (Z.eqb_spec (key x) k) as [Hx | Hx];
    try reflexivity.
  exfalso. lia.
Qed.

(** ... and elements of equal key keep their input order. *)
Lemma Array_sort_stable (l : list A) (k : Z) :
  List.Forall P l ->
  List.filter (hasKey key k) (Array_sort cmp l) = List.filter (hasKey key k) l.
Proof.
  induction l as [| x r IH]; intros HP; [reflexivity |].
  inversion HP as [| ? ? Px HPr]; subst. cbn [Array_sort].
  rewrite sort_insert_stable by (try apply Array_sort_Forall; assumption).
  cbn [List.filter]. now rewrite IH.
Qed.

Lemma filter_hasKey_head (x : A) (l : list A) :
  List.filter (hasKey key (key x)) (x :: l)
  = x :: List.filter (hasKey key (key x)) l.
Proof. cbn [List.filter]. unfold hasKey. now rewrite Z.eqb_refl. Qed.

Lemma sorted_head_least (x y : A) (r1 r2 : list A) :
  StronglySorted (keyLe key) (y :: r2) ->
  List.filter (hasKey key (key x)) (x :: r1)
  = List.filter (hasKey key (key x)) (y :: r2) ->
  key y <= key x.
Proof.
  intros Hs Hf. rewrite filter_hasKey_head in Hf.
  assert (Hin : In x (List.filter (hasKey key (key x)) (y :: r2)))
    by (rewrite <- Hf; left; reflexivity).
  apply filter_In in Hin as [[-> | Hin] _]; [lia |].
  inversion Hs as [| ? ? _ Hall]; subst.
  rewrite List.Forall_forall in Hall. exact (Hall x Hin).
Qed.

(** Two key-sorted lists with the same elements of each key, in the same
    order, are equal: the stable sorted arrangement is unique. *)
Lemma stable_sorted_unique (l1 l2 : list A) :
  StronglySorted (keyLe key) l1 -> StronglySorted (keyLe key) l2 ->
  (forall k, List.filter (hasKey key k) l1 = List.filter (hasKey key k) l2) ->
  l1 = l2.
Proof.
  revert l2. induction l1 as [| x r1 IH]; intros l2 H1 H2 Hf.
  - destruct l2 as [| y r2]; [reflexivity |].
    specialize (Hf (key y)). rewrite filter_hasKey_head in Hf. discriminate.
  - destruct l2 as [| y r2].
    + specialize (Hf (key x)). rewrite filter_hasKey_head in Hf. discriminate.
    + assert (Hyx : key y <= key x)
        by (exact (sorted_head_least x y r1 r2 H2 (Hf (key x)))).
      assert (Hxy : key x <= key y)
        by (exact (sorted_head_least y x r2 r1 H1 (eq_sym (Hf (key y))))).
      assert (Hk : key y = key x) by lia.
      pose proof (Hf (key x)) as Hx.
      rewrite filter_hasKey_head in Hx. rewrite <- Hk in Hx at 2.
      rewrite filter_hasKey_head in Hx. rewrite Hk in Hx.
      injection Hx as -> Hr. f_equal.
      inversion H1; inversion H2; subst.
      apply IH; [assumption | assumption |].
      intros k. specialize (Hf k). cbn [List.filter] in Hf.
      destruct (hasKey key k y); [now injection Hf | exact Hf].
Qed.

(** Hence every stable sort by this key returns what [Array_sort]
    returns. *)
Lemma Array_sort_unique (l l' : list A) :
  List.Forall P l -> StronglySorted (keyLe key) l' ->
  (forall k, List.filter (hasKey key k) l' = List.filter (hasKey key k) l) ->
  l' = Array_sort cmp l.
Proof.
  intros HP Hs Hf. apply stable_sorted_unique; [assumption | |].
  - apply Array_sort_sorted. assumption.
  - intros k. rewrite Hf. symmetry. apply Array_sort_stable. assumption.
Qed.

End SortByKey.

Lemma StronglySorted_lookup {A} (R : A -> A -> Prop) (l : list A)
  (i j : nat) (a b : A) :
  StronglySorted R l -> (i < j)%nat ->
  l !! i = Some a -> l !! j = Some b -> R a b.
Proof.
  intros Hs. revert i j. induction Hs as [| x r Hr IH Hx]; intros i j Hij Hi Hj.
  - discriminate.
  - destruct j as [| j]; [lia |]. cbn in Hj.
    destruct i as [| i]; cbn in Hi.
    + injection Hi as <-. rewrite List.Forall_forall in Hx. apply Hx.
      apply list_elem_of_In. eapply list_elem_of_lookup_2. exact Hj.
    + apply (IH i j); [lia | assumption | assumption].
Qed.

Lemma comparePriority_key (a b : Assignment) :
  validPriority a -> validPriority b ->
  comparePriority a b = Some (priorityRank a - priorityRank b).
Proof.
  unfold validPriority, comparePriority, priorityRank.
  intros [-> | [-> | ->]] [-> | [-> | ->]]; reflexivity.
Qed.

Lemma compareDueDate_key (a b : Assignment) :
  True -> True -> compareDueDate a b = Some (dueKey a - dueKey b).
Proof. reflexivity. Qed.

Lemma comparePoints_key (a b : Assignment) :
  True -> True -> comparePoints a b = Some (pointsKey a - pointsKey b).
Proof. intros _ _. unfold comparePoints, pointsKey. f_equal. ring. Qed.

Lemma Forall_True {A} (l : list A) : List.Forall (fun _ => True) l.
Proof. induction l; constructor; trivial. Qed.

Lemma comparator_default (s : string) :
  s <> "priority"%string -> s <> "points"%string ->
  comparator s = compareDueDate.
Proof.
  intros H1 H2. unfold comparator.
  destruct (String.eqb_spec s "dueDate"); [reflexivity |].
  destruct (String.eqb_spec s "priority"); [congruence |].
  destruct (String.eqb_spec s "points"); [congruence | reflexivity].
Qed.

Lemma priorityRank_cases (a : Assignment) :
  validPriority a ->
  (priority a = "high"%string /\ priorityRank a = 1)
  \/ (priority a = "medium"%string /\ priorityRank a = 2)
  \/ (priority a = "low"%string /\ priorityRank a = 3).
Proof.
  unfold validPriority, priorityRank.
  intros [H | [H | H]]; rewrite H; simpl; tauto.
Qed.

(** C6: on a list whose priorities are all high, medium or low, sorting
    by priority is a rearrangement that puts every high item before every
    medium one and every medium before every low, items of equal key
    keeping their input order; sorting by dueDate is ascending and
    stable, and is what any other key falls back to; sorting by points is
    descending and stable. *)
Theorem sortAssignments_order (l : list Assignment) :
  List.Forall validPriority l ->
  (Permutation (sortAssignments l "priority") l
   /\ (forall i j a b,
         (i < j)%nat ->
         sortAssignments l "priority" !! i = Some a ->
         sortAssignments l "priority" !! j = Some b ->
         priorityRank a <= priorityRank b
         /\ (priority a = "medium"%string -> priority b <> "high"%string)
         /\ (priority a = "low"%string ->
             priority b <> "high"%string /\ priority b <> "medium"%string))
   /\ (forall k,
         List.filter (hasKey priorityRank k) (sortAssignments l "priority")
         = List.filter (hasKey priorityRank k) l))
  /\ (Permutation (sortAssignments l "dueDate") l
      /\ (forall i j a b,
            (i < j)%nat ->
            sortAssignments l "dueDate" !! i = Some a ->
            sortAssignments l "dueDate" !! j = Some b ->
            MakeDay (dueDate a) <= MakeDay (dueDate b))
      /\ (forall k,
            List.filter (hasKey dueKey k) (sortAssignments l "dueDate")
            = List.filter (hasKey dueKey k) l)
      /\ (forall s,
            s <> "priority"%string -> s <> "points"%string ->
            sortAssignments l s = sortAssignments l "dueDate"))
  /\ (Permutation (sortAssignments l "points") l
      /\ (forall i j a b,
            (i < j)%nat ->
            sortAssignments l "points" !! i = Some a ->
            sortAssignments l "points" !! j = Some b ->
            points b <= points a)
      /\ (forall k,
            List.filter (hasKey pointsKey k) (sortAssignments l "points")
            = List.filter (hasKey pointsKey k) l)).
Proof.
  intros Hv. unfold sortAssignments.
  change (comparator "priority") with comparePriority.
  change (comparator "dueDate") with compareDueDate.
  change (comparator "points") with comparePoints.
  split; [| split].
  - split; [apply Array_sort_perm |]. split.
    + intros i j a b Hij Hi Hj.
      pose proof (Array_sort_sorted _ _ _ comparePriority_key l Hv) as Hs.
      pose proof (StronglySorted_lookup _ _ i j a b Hs Hij Hi Hj) as Hle.
      unfold keyLe in Hle.
      pose proof (Array_sort_Forall comparePriority validPriority l Hv) as Hall.
      rewrite List.Forall_forall in Hall.
      assert (Ha : validPriority a).
      { apply Hall, list_elem_of_In. eapply list_elem_of_lookup_2. exact Hi. }
      assert (Hb : validPriority b).
      { apply Hall, list_elem_of_In. eapply list_elem_of_lookup_2. exact Hj. }
      destruct (priorityRank_cases a Ha) as [[Pa Ra] | [[Pa Ra] | [Pa Ra]]];
        destruct (priorityRank_cases b Hb) as [[Pb Rb] | [[Pb Rb] | [Pb Rb]]];
        rewrite Pa, Pb; repeat split; try lia; try discriminate;
        intros; discriminate.
    + intros k. apply (Array_sort_stable _ _ _ comparePriority_key). exact Hv.
  - split; [apply Array_sort_perm |]. split; [| split].
    + intros i j a b Hij Hi Hj.
      pose proof (Array_sort_sorted _ _ _ compareDueDate_key l
                    (Forall_True l)) as Hs.
      pose proof (StronglySorted_lookup _ _ i j a b Hs Hij Hi Hj) as Hle.
      unfold keyLe, dueKey, Date_parse, msPerDay in Hle. lia.
    + intros k. apply (Array_sort_stable _ _ _ compareDueDate_key).
      apply Forall_True.
    + intros s H1 H2. now rewrite comparator_default.
  - split; [apply Array_sort_perm |]. split.
    + intros i j a b Hij Hi Hj.
      pose proof (Array_sort_sorted _ _ _ comparePoints_key l
                    (Forall_True l)) as Hs.
      pose proof (StronglySorted_lookup _ _ i j a b Hs Hij Hi Hj) as Hle.
      unfold keyLe, pointsKey in Hle. lia.
    + intros k. apply (Array_sort_stable _ _ _ comparePoints_key).
      apply Forall_True.
Qed.

Example sortAssignments_sample_priority :
  sortAssignments sample_assignments "priority" = [essay; reading; lab; quiz].
Proof. reflexivity. Qed.

Example sortAssignments_sample_points :
  sortAssignments sample_assignments "points" = [essay; lab; quiz; reading].
Proof. reflexivity. Qed.

Example sortAssignments_sample_dueDate :
  sortAssignments sample_assignments "dueDate" = [essay; quiz; reading; lab].
Proof. reflexivity. Qed.

(** ** The arrays behind the lists *)

Section ArrayStore.

Implicit Types (h hk : gmap positive (list Assignment)) (r : positive).
Implicit Types (xs ys zs : list Assignment).

Lemma alloc_fresh h ys : Mem.returnsFresh h ys (Mem.alloc ys h).
Proof.
  unfold Mem.returnsFresh, Mem.alloc. cbn [fst snd].
  assert (Hf : h !! fresh (dom h) = None)
    by (apply not_elem_of_dom, is_fresh).
  split; [exact Hf |]. split; [apply lookup_insert_eq |].
  intros r zs Hr. rewrite lookup_insert_ne; [exact Hr |].
  intros <-. congruence.
Qed.

Lemma returnsFresh_ret h r hk ys :
  Mem.returnsFresh h ys (r, hk) -> Mem.returnsFresh h ys (Mem.ret r hk).
Proof. intros H. exact H. Qed.

Lemma spread_fresh h r xs :
  h !! r = Some xs -> Mem.returnsFresh h xs (Mem.spread r h).
Proof.
  intros Hr. unfold Mem.spread, Mem.bind, Mem.contents. rewrite Hr.
  apply alloc_fresh.
Qed.

Lemma filter_fresh h hk r ys (p : Assignment -> bool) :
  Mem.returnsFresh h ys (r, hk) ->
  Mem.returnsFresh h (List.filter p ys) (Mem.filter p r hk).
Proof.
  intros (Hnew & Hys & Hkeep). cbn [fst snd] in *.
  unfold Mem.filter, Mem.bind, Mem.contents. rewrite Hys.
  cbn [default from_option id].
  destruct (alloc_fresh hk (List.filter p ys)) as (Hn & Hl & Hk).
  split; [| split].
  - destruct (h !! (Mem.alloc (List.filter p ys) hk).1) as [zs |] eqn:E;
      [| reflexivity].
    apply Hkeep in E. congruence.
  - exact Hl.
  - intros r' zs Hr'. apply Hk, Hkeep, Hr'.
Qed.

Lemma sort_fresh h hk r ys (cmp : Assignment -> Assignment -> option Z) :
  Mem.returnsFresh h ys (r, hk) ->
  Mem.returnsFresh h (Array_sort cmp ys) (Mem.sort cmp r hk).
Proof.
  intros (Hnew & Hys & Hkeep). cbn [fst snd] in *.
  unfold Mem.sort, Mem.returnsFresh. cbn [fst snd]. rewrite Hys.
  split; [exact Hnew |]. split; [apply lookup_insert_eq |].
  intros r' zs Hr'. rewrite lookup_insert_ne; [apply Hkeep, Hr' |].
  intros <-. congruence.
Qed.

Lemma bind_fresh h ys zs (m : Mem.M positive)
  (k : positive -> Mem.M positive) h0 :
  Mem.returnsFresh h ys (m h0) ->
  (forall r hk,
      Mem.returnsFresh h ys (r, hk) -> Mem.returnsFresh h zs (k r hk)) ->
  Mem.returnsFresh h zs (Mem.bind m k h0).
Proof.
  unfold Mem.bind. destruct (m h0) as [r hk]. intros Hm Hk. apply Hk, Hm.
Qed.

Lemma sortAssignments_fresh h r xs (sortBy : string) :
  h !! r = Some xs ->
  Mem.returnsFresh h (sortAssignments xs sortBy)
    (Mem.sortAssignments r sortBy h).
Proof.
  intros Hr. unfold Mem.sortAssignments.
  eapply bind_fresh; [apply spread_fresh, Hr |]. intros r1 h1 H1.
  pose proof (sort_fresh h h1 r1 xs (comparator sortBy) H1) as H2.
  unfold Mem.bind. unfold Mem.sort in *. exact H2.
Qed.

Lemma filterAssignments_fresh h r xs (filters : Filters) :
  h !! r = Some xs ->
  Mem.returnsFresh h (filterAssignments xs filters)
    (Mem.filterAssignments r filters h).
Proof.
  intros Hr. unfold Mem.filterAssignments, filterAssignments.
  destruct (truthy (f_courseId filters)),
    (statusIs filters "completed"), (statusIs filters "incomplete"),
    (truthy (f_search filters));
    repeat (eapply bind_fresh;
            [ first [ apply spread_fresh, Hr
                    | apply filter_fresh; eassumption
                    | apply returnsFresh_ret; eassumption ]
            | intros ? ? ? ]);
    apply returnsFresh_ret; eassumption.
Qed.

End ArrayStore.

(** C7: run on a store in which the input array holds [xs], the filter
    and the sort return a reference to a new array, write to no array
    that was live before the call (the input array among them), and the
    contents of the result are a function of [xs] and of the criteria or
    the key alone. *)
Theorem query_engine_frame (h : gmap positive (list Assignment))
  (assignments : positive) (xs : list Assignment)
  (filters : Filters) (sortBy : string) :
  h !! assignments = Some xs ->
  (exists r h',
      Mem.filterAssignments assignments filters h = (r, h')
      /\ h' !! assignments = Some xs
      /\ (forall r0 zs, h !! r0 = Some zs -> h' !! r0 = Some zs)
      /\ h !! r = None
      /\ h' !! r = Some (filterAssignments xs filters))
  /\ (exists r h',
        Mem.sortAssignments assignments sortBy h = (r, h')
        /\ h' !! assignments = Some xs
        /\ (forall r0 zs, h !! r0 = Some zs -> h' !! r0 = Some zs)
        /\ h !! r = None
        /\ h' !! r = Some (sortAssignments xs sortBy)).
Proof.
  intros Hin. split.
  - pose proof (filterAssignments_fresh h assignments xs filters Hin) as H.
    destruct (Mem.filterAssignments assignments filters h) as [r h'].
    destruct H as (Hnew & Hres & Hkeep). cbn [fst snd] in *.
    exists r, h'. repeat split; auto.
  - pose proof (sortAssignments_fresh h assignments xs sortBy Hin) as H.
    destruct (Mem.sortAssignments assignments sortBy h) as [r h'].
    destruct H as (Hnew & Hres & Hkeep). cbn [fst snd] in *.
    exists r, h'. repeat split; auto.
Qed.

(** ** The store *)

(** C8: on a stored assignment, two calls of [toggleComplete] succeed,
    the first flips [completed] and the second restores it, and the
    history grows by exactly two entries, both for this assignment and
    the field [completed], recording the transition there and back. *)
Theorem toggleComplete_twice (s : Store.t) (id : Z) (a : Store.Assignment)
  (t1 t2 : Z) :
  Store.assignments s !! id = Some a ->
  exists s1 a1 s2 a2 e1 e2,
    Store.toggleComplete id t1 s = (s1, Store.Ok a1)
    /\ Store.toggleComplete id t2 s1 = (s2, Store.Ok a2)
    /\ Store.assignments s1 !! id = Some a1
    /\ Store.completed a1 = negb (Store.completed a)
    /\ Store.assignments s2 !! id = Some a2
    /\ Store.completed a2 = Store.completed a
    /\ Store.history s2 = Store.history s ++ [e1; e2]
    /\ length (Store.history s2) = (length (Store.history s) + 2)%nat
    /\ (Store.assignmentId e1 = id
        /\ Store.field e1 = "completed"%string
        /\ Store.previous e1 = Store.VBool (Store.completed a)
        /\ Store.current e1 = Store.VBool (negb (Store.completed a)))
    /\ (Store.assignmentId e2 = id
        /\ Store.field e2 = "completed"%string
        /\ Store.previous e2 = Store.VBool (negb (Store.completed a))
        /\ Store.current e2 = Store.VBool (Store.completed a)).
Proof.
  intros Ha. do 6 eexists.
  split; [unfold Store.toggleComplete; rewrite Ha; reflexivity |].
  split.
  { unfold Store.toggleComplete.
    cbn [Store.assignments Store.history Store.nextHistoryId Store.courses].
    rewrite lookup_insert_eq. reflexivity. }
  split; [apply lookup_insert_eq |]. split; [reflexivity |].
  split; [apply lookup_insert_eq |].
  split; [cbn; apply negb_involutive |].
  split; [cbn; rewrite <- app_assoc; reflexivity |].
  split; [cbn; rewrite !length_app; cbn; lia |].
  cbn. rewrite negb_involutive. repeat split; reflexivity.
Qed.

Lemma inCourse_true (s : Store.t) (cid aid : Z) :
  Store.inCourse s cid aid = true
  <-> exists a, Store.assignments s !! aid = Some a /\ Store.courseId a = cid.
Proof.
  unfold Store.inCourse.
  destruct (Store.assignments s !! aid) as [a |].
  - rewrite Z.eqb_eq. split.
    + intros H. exists a. split; [reflexivity | exact H].
    + intros [a' [Ha' H]]. injection Ha' as <-. exact H.
  - split; [discriminate | intros [a [Ha _]]; discriminate].
Qed.

(** C9: deleting a course that exists removes that course and no other,
    exactly the assignments whose [courseId] is its id, and exactly the
    history entries of those assignments; all else is as before.
    Deleting an absent id fails with [NotFoundError] and the store is the
    one given. *)
Theorem deleteCourse_cascade (s : Store.t) (cid : Z) :
  match Store.courses s !! cid with
  | Some _ =>
      exists s',
        Store.deleteCourse cid s = (s', Store.Ok tt)
        /\ Store.courses s' !! cid = None
        /\ (forall k, k <> cid -> Store.courses s' !! k = Store.courses s !! k)
        /\ (forall k a,
              Store.assignments s' !! k = Some a
              <-> Store.assignments s !! k = Some a
                  /\ Store.courseId a <> cid)
        /\ (forall e,
              In e (Store.history s')
              <-> In e (Store.history s)
                  /\ ~ (exists a,
                          Store.assignments s !! Store.assignmentId e = Some a
                          /\ Store.courseId a = cid))
        /\ Store.history s'
           = List.filter
               (fun e => negb (Store.inCourse s cid (Store.assignmentId e)))
               (Store.history s)
  | None => Store.deleteCourse cid s = (s, Store.Err Store.NotFoundError)
  end.
Proof.
  unfold Store.deleteCourse.
  destruct (Store.courses s !! cid) as [c |]; [| reflexivity].
  eexists. split; [reflexivity |].
  cbn [Store.courses Store.assignments Store.history].
  split; [apply lookup_delete_eq |].
  split; [intros k Hk; apply lookup_delete_ne; congruence |].
  split; [intros k a; apply map_lookup_filter_Some |].
  split; [| reflexivity].
  intros e. rewrite filter_In, negb_true_iff, <- not_true_iff_false,
    inCourse_true. tauto.
Qed.

Example deleteCourse_sample :
  let s' := (Store.deleteCourse 7 sample_store).1 in
  (Store.deleteCourse 7 sample_store).2 = Store.Ok tt
  /\ Store.courses s' !! 7 = None
  /\ is_Some (Store.courses s' !! 9)
  /\ Store.assignments s' !! 1 = None
  /\ Store.assignments s' !! 2 = None
  /\ Store.assignments s' !! 3 = Store.assignments sample_store !! 3
  /\ Store.history s' = Store.history sample_store.
Proof. vm_compute. repeat split; eauto. Qed.

Example deleteCourse_sample_absent :
  Store.deleteCourse 8 sample_store
  = (sample_store, Store.Err Store.NotFoundError).
Proof. reflexivity. Qed.

Example toggleComplete_sample_absent :
  Store.toggleComplete 8 5000 sample_store
  = (sample_store, Store.Err Store.NotFoundError).
Proof. reflexivity. Qed.

(** ** Instances on the sample data *)

Lemma sortAssignments_order_witness :
  List.Forall validPriority sample_assignments
  /\ Permutation (sortAssignments sample_assignments "priority")
       sample_assignments.
Proof.
  assert (H : List.Forall validPriority sample_assignments).
  { unfold sample_assignments, validPriority.
    constructor; [right; right; reflexivity |].
    constructor; [right; left; reflexivity |].
    constructor; [left; reflexivity |].
    constructor; [left; reflexivity | constructor]. }
  split; [exact H |].
  exact (proj1 (proj1 (sortAssignments_order sample_assignments H))).
Defined.

Lemma query_engine_frame_witness :
  sample_heap !! 1%positive = Some sample_assignments
  /\ exists r h',
       Mem.sortAssignments 1%positive "priority" sample_heap = (r, h')
       /\ h' !! 1%positive = Some sample_assignments
       /\ h' !! r = Some [essay; reading; lab; quiz].
Proof.
  assert (H : sample_heap !! 1%positive = Some sample_assignments)
    by reflexivity.
  split; [exact H |].
  destruct (query_engine_frame sample_heap 1%positive sample_assignments
              (incompleteOfCourse "9") "priority" H)
    as [_ (r & h' & Hrun & Hin & _ & _ & Hres)].
  exists r, h'. split; [exact Hrun |]. split; [exact Hin | exact Hres].
Defined.

Lemma toggleComplete_twice_witness :
  Store.assignments sample_store !! 1 = Some
    {| Store.courseId := 7; Store.title := "Essay";
       Store.description := None; Store.dueDate := date_2024_01_10;
       Store.priority := "high"; Store.points := 10;
       Store.completed := false; Store.completedAt := None |}
  /\ exists s1 a1 s2 a2,
       Store.toggleComplete 1 5000 sample_store = (s1, Store.Ok a1)
       /\ Store.toggleComplete 1 6000 s1 = (s2, Store.Ok a2)
       /\ Store.completed a2 = false
       /\ length (Store.history s2) = 3%nat.
Proof.
  set (a := {| Store.courseId := 7; Store.title := "Essay";
       Store.description := None; Store.dueDate := date_2024_01_10;
       Store.priority := "high"; Store.points := 10;
       Store.completed := false; Store.completedAt := None |}).
  assert (H : Store.assignments sample_store !! 1 = Some a) by reflexivity.
  split; [exact H |].
  destruct (toggleComplete_twice sample_store 1 a 5000 6000 H)
    as (s1 & a1 & s2 & a2 & e1 & e2 & H1 & H2 & _ & _ & _ & Hc & _ & Hlen & _).
  exists s1, a1, s2, a2. repeat split; assumption.
Defined.

(** * Further properties of the front end *)

(** ** Calendar fields *)

Lemma yearOfEra_bounds (doe : Z) :
  0 <= doe <= 146096 ->
  0 <= yearOfEra doe <= 399
  /\ 0 <= doe - (365 * yearOfEra doe + yearOfEra doe / 4
                 - yearOfEra doe / 100) <= 365.
Proof. intros H. unfold yearOfEra. Z.div_mod_to_equations. lia. Qed.

Lemma dayOfEra_bounds (z : Z) : 0 <= z - z / 146097 * 146097 <= 146096.
Proof. Z.div_mod_to_equations. lia. Qed.

(** The calendar date of a day number has that day number. *)
Lemma MakeDay_civil (n : Z) : MakeDay (civil n) = n.
Proof.
  unfold civil, MakeDay. cbn [iso_year iso_month iso_day].
  set (z := n + 719468). set (era := z / 146097).
  set (doe := z - era * 146097).
  destruct (yearOfEra_bounds doe (dayOfEra_bounds z)) as [Hy Hd].
  set (yoe := yearOfEra doe) in *.
  set (doy := doe - (365 * yoe + yoe / 4 - yoe / 100)) in *.
  set (mp := (5 * doy + 2) / 153).
  assert (Hmp : 0 <= mp <= 11) by (subst mp; Z.div_mod_to_equations; lia).
  set (m := if mp <? 10 then mp + 3 else mp - 9).
  assert (Hm : (m + 9) mod 12 = mp /\ ((m <=? 2) = negb (mp <? 10))).
  { subst m. destruct (Z.ltb_spec mp 10).
    - split; [Z.div_mod_to_equations; lia |].
      apply Z.leb_gt. lia.
    - split; [Z.div_mod_to_equations; lia |].
      apply Z.leb_le. lia. }
  destruct Hm as [Hm1 Hm2]. rewrite Hm1, Hm2.
  assert (Hera : (yoe + era * 400) / 400 = era)
    by (Z.div_mod_to_equations; lia).
  destruct (mp <? 10); cbn [negb];
    [| replace (yoe + era * 400 + 1 - 1) with (yoe + era * 400) by ring];
    rewrite Hera;
    replace (yoe + era * 400 - era * 400) with yoe by ring;
    subst doy doe z; lia.
Qed.

(** Its month lies between 1 and 12 and its day between 1 and 31. *)
Lemma civil_fields (n : Z) :
  1 <= iso_month (civil n) <= 12 /\ 1 <= iso_day (civil n) <= 31.
Proof.
  unfold civil. cbn [iso_month iso_day].
  set (z := n + 719468). set (era := z / 146097).
  set (doe := z - era * 146097).
  destruct (yearOfEra_bounds doe (dayOfEra_bounds z)) as [Hy Hd].
  set (yoe := yearOfEra doe) in *.
  set (doy := doe - (365 * yoe + yoe / 4 - yoe / 100)) in *.
  set (mp := (5 * doy + 2) / 153).
  assert (Hmp : 0 <= mp <= 11) by (subst mp; Z.div_mod_to_equations; lia).
  split.
  - destruct (Z.ltb_spec mp 10); lia.
  - subst mp. Z.div_mod_to_equations. lia.
Qed.

Example civil_2024_01_10 : civil 19732 = date_2024_01_10.
Proof. reflexivity. Qed.

Example civil_leap_day :
  civil (MakeDay {| iso_year := 2024; iso_month := 2; iso_day := 29 |})
  = {| iso_year := 2024; iso_month := 2; iso_day := 29 |}
  /\ civil (MakeDay {| iso_year := 2024; iso_month := 2; iso_day := 29 |} + 1)
     = {| iso_year := 2024; iso_month := 3; iso_day := 1 |}.
Proof. split; reflexivity. Qed.

(** ** Day counts and labels *)

Lemma Day_next (t : Z) : Day (t + msPerDay) = Day t + 1.
Proof. unfold Day, msPerDay. Z.div_mod_to_equations. lia. Qed.

Lemma setDateNext_fixed (o t : Z) :
  setDateNext (fixedZone o) t = t + msPerDay.
Proof. unfold setDateNext, UTC, LocalTime. simpl. ring. Qed.

Lemma localDay_fixed (o t : Z) : localDay (fixedZone o) t = Day (t + o).
Proof. reflexivity. Qed.

(** X1. In a zone with a constant offset the day count, and with it the
    overdue and due-soon tests, are the same at any two instants of one
    local calendar day. *)
Theorem daysUntilDue_same_local_day (o now1 now2 : Z) (d : IsoDate)
  (c : bool) :
  localDay (fixedZone o) now1 = localDay (fixedZone o) now2 ->
  daysUntilDue (fixedZone o) now1 d = daysUntilDue (fixedZone o) now2 d
  /\ isOverdue (fixedZone o) now1 d c = isOverdue (fixedZone o) now2 d c
  /\ isDueSoon (fixedZone o) now1 d c = isDueSoon (fixedZone o) now2 d c.
Proof.
  intros H.
  assert (E : daysUntilDue (fixedZone o) now1 d
              = daysUntilDue (fixedZone o) now2 d)
    by (rewrite !daysUntilDue_fixed, H; reflexivity).
  unfold isOverdue, isDueSoon. rewrite E. repeat split; reflexivity.
Qed.

Lemma daysUntilDue_same_local_day_witness :
  localDay zone_minus5 noon_2024_01_10_minus5
  = localDay zone_minus5 (noon_2024_01_10_minus5 + 3 * msPerHour)
  /\ daysUntilDue zone_minus5 noon_2024_01_10_minus5 date_2024_01_14
     = daysUntilDue zone_minus5 (noon_2024_01_10_minus5 + 3 * msPerHour)
         date_2024_01_14.
Proof.
  assert (H : localDay (fixedZone (-5 * msPerHour)) noon_2024_01_10_minus5
              = localDay (fixedZone (-5 * msPerHour))
                  (noon_2024_01_10_minus5 + 3 * msPerHour))
    by reflexivity.
  split; [exact H |].
  exact (proj1 (daysUntilDue_same_local_day (-5 * msPerHour)
                  noon_2024_01_10_minus5
                  (noon_2024_01_10_minus5 + 3 * msPerHour)
                  date_2024_01_14 false H)).
Defined.

Lemma toLocaleDateString_not_label (z : Zone) (t : Z) :
  toLocaleDateString z t <> "Today"%string
  /\ toLocaleDateString z t <> "Tomorrow"%string.
Proof.
  unfold toLocaleDateString.
  set (rest := String.append " " _). clearbody rest.
  unfold monthShort.
  repeat match goal with
         | |- context [if ?b then _ else _] => destruct b
         end; split; discriminate.
Qed.

(** [formatDate] in a zone with a constant offset, by local day
    numbers. *)
Lemma formatDate_fixed (o now : Z) (d : IsoDate) :
  formatDate (fixedZone o) now (Some d)
  = if localDay (fixedZone o) (Date_parse d) =? localDay (fixedZone o) now
    then "Today"%string
    else if localDay (fixedZone o) (Date_parse d)
            =? localDay (fixedZone o) now + 1
         then "Tomorrow"%string
         else toLocaleDateString (fixedZone o)
                (setHours0 (fixedZone o) (Date_parse d)).
Proof.
  unfold formatDate. rewrite setDateNext_fixed, !setHours0_fixed.
  rewrite !localDay_fixed.
  replace (now + msPerDay + o) with (now + o + msPerDay) by ring.
  rewrite Day_next.
  set (a := Day (Date_parse d + o)). set (b := Day (now + o)).
  assert (E1 : (a * msPerDay - o =? b * msPerDay - o) = (a =? b)).
  { destruct (Z.eqb_spec a b) as [-> | Hne]; [apply Z.eqb_refl |].
    apply Z.eqb_neq. unfold msPerDay. lia. }
  assert (E2 : (a * msPerDay - o =? (b + 1) * msPerDay - o) = (a =? b + 1)).
  { destruct (Z.eqb_spec a (b + 1)) as [-> | Hne]; [apply Z.eqb_refl |].
    apply Z.eqb_neq. unfold msPerDay. lia. }
  now rewrite E1, E2.
Qed.

(** X2. [formatDate] gives the empty string for an empty date and, in a
    zone with a constant offset, the label "Today" exactly when
    [daysUntilDue] is 0 and "Tomorrow" exactly when it is 1. *)
Theorem formatDate_labels (o now : Z) (d : IsoDate) :
  formatDate (fixedZone o) now None = EmptyString
  /\ (formatDate (fixedZone o) now (Some d) = "Today"%string
      <-> daysUntilDue (fixedZone o) now d = 0)
  /\ (formatDate (fixedZone o) now (Some d) = "Tomorrow"%string
      <-> daysUntilDue (fixedZone o) now d = 1).
Proof.
  split; [reflexivity |].
  rewrite daysUntilDue_fixed, formatDate_fixed.
  set (a := localDay (fixedZone o) (Date_parse d)).
  set (b := localDay (fixedZone o) now).
  destruct (toLocaleDateString_not_label (fixedZone o)
              (setHours0 (fixedZone o) (Date_parse d))) as [N1 N2].
  destruct (Z.eqb_spec a b) as [E1 | E1].
  - split; split; intros; try reflexivity; try discriminate; lia.
  - destruct (Z.eqb_spec a (b + 1)) as [E2 | E2].
    + split; split; intros; try reflexivity; try discriminate; lia.
    + split; split; intros H; try contradiction; exfalso; lia.
Qed.

Lemma getTodayDate_civil (z : Zone) (now : Z) :
  getTodayDate z now = civil (localDay z now).
Proof.
  unfold getTodayDate, getFullYear, getMonth, getDate.
  fold (localDay z now).
  destruct (civil (localDay z now)) as [y m dd].
  cbn [iso_year iso_month iso_day]. f_equal. ring.
Qed.

(** X3. In every zone the fields that [getTodayDate] prints are those of
    the local calendar day of the clock: a month from 1 to 12, a day from
    1 to 31, and the date they name is that day. *)
Theorem getTodayDate_is_local_day (z : Zone) (now : Z) :
  MakeDay (getTodayDate z now) = localDay z now
  /\ 1 <= iso_month (getTodayDate z now) <= 12
  /\ 1 <= iso_day (getTodayDate z now) <= 31.
Proof.
  rewrite getTodayDate_civil. split; [apply MakeDay_civil |].
  apply civil_fields.
Qed.

(** X4. Feeding today's date string back to [formatDate], in a zone
    whose constant offset is within a day of UTC: the label is "Today"
    exactly when the zone is not behind UTC. *)
Theorem formatDate_getTodayDate (o now : Z) :
  - msPerDay <= o < msPerDay ->
  fourDigitYear (getTodayDate (fixedZone o) now) ->
  formatDate (fixedZone o) now (Some (getTodayDate (fixedZone o) now))
  = "Today"%string
  <-> 0 <= o.
Proof.
  intros Ho _. rewrite formatDate_fixed.
  pose proof (MakeDay_civil (localDay (fixedZone o) now)) as Hd.
  rewrite <- getTodayDate_civil in Hd.
  set (d := getTodayDate (fixedZone o) now) in *.
  destruct (toLocaleDateString_not_label (fixedZone o)
              (setHours0 (fixedZone o) (Date_parse d))) as [N1 _].
  destruct (Z.le_gt_cases 0 o) as [Hpos | Hneg].
  - rewrite localDay_parse_east, Hd, Z.eqb_refl by lia.
    split; [intros _; exact Hpos | reflexivity].
  - rewrite localDay_parse_west, Hd by lia.
    destruct (Z.eqb_spec (localDay (fixedZone o) now - 1)
                (localDay (fixedZone o) now)) as [E | _]; [lia |].
    split; [| lia].
    destruct (_ =? _); [discriminate | contradiction].
Qed.

Lemma formatDate_getTodayDate_witness :
  (- msPerDay <= 2 * msPerHour < msPerDay)
  /\ fourDigitYear
       (getTodayDate (fixedZone (2 * msPerHour)) noon_2024_04_01_cest)
  /\ formatDate (fixedZone (2 * msPerHour)) noon_2024_04_01_cest
       (Some (getTodayDate (fixedZone (2 * msPerHour)) noon_2024_04_01_cest))
     = "Today"%string.
Proof.
  assert (H1 : - msPerDay <= 2 * msPerHour < msPerDay)
    by (unfold msPerDay, msPerHour; lia).
  assert (H2 : fourDigitYear
       (getTodayDate (fixedZone (2 * msPerHour)) noon_2024_04_01_cest))
    by (vm_compute; split; discriminate).
  split; [exact H1 |]. split; [exact H2 |].
  apply (formatDate_getTodayDate (2 * msPerHour) noon_2024_04_01_cest H1 H2).
  unfold msPerHour. lia.
Defined.

(** X5. The due date that the new-assignment form proposes is, at the
    moment the form opens and in a zone whose constant offset is within a
    day of UTC, zero or one day ahead: such an assignment is never shown
    overdue and always shown due soon. *)
Theorem defaultDueDate_is_due_soon (o now : Z) :
  - msPerDay <= o < msPerDay ->
  fourDigitYear (defaultDueDate (fixedZone o) now) ->
  0 <= daysUntilDue (fixedZone o) now (defaultDueDate (fixedZone o) now) <= 1
  /\ isOverdue (fixedZone o) now (defaultDueDate (fixedZone o) now) false
     = false
  /\ isDueSoon (fixedZone o) now (defaultDueDate (fixedZone o) now) false
     = true.
Proof.
  intros Ho _.
  assert (Hd : 0 <= daysUntilDue (fixedZone o) now
                      (defaultDueDate (fixedZone o) now) <= 1).
  { rewrite daysUntilDue_fixed.
    assert (Hm : MakeDay (defaultDueDate (fixedZone o) now) = Day now + 1).
    { unfold defaultDueDate. rewrite MakeDay_civil, setDateNext_fixed.
      apply Day_next. }
    destruct (Z.le_gt_cases 0 o) as [Hpos | Hneg].
    - rewrite localDay_parse_east, Hm, localDay_fixed by lia.
      unfold Day, msPerDay in *. Z.div_mod_to_equations. lia.
    - rewrite localDay_parse_west, Hm, localDay_fixed by lia.
      unfold Day, msPerDay in *. Z.div_mod_to_equations. lia. }
  split; [exact Hd |]. unfold isOverdue, isDueSoon.
  split; [apply Z.ltb_ge; lia |].
  apply andb_true_intro. split; [apply Z.geb_le; lia | apply Z.leb_le; lia].
Qed.

Lemma defaultDueDate_is_due_soon_witness :
  (- msPerDay <= -5 * msPerHour < msPerDay)
  /\ fourDigitYear (defaultDueDate zone_minus5 noon_2024_01_10_minus5)
  /\ isDueSoon zone_minus5 noon_2024_01_10_minus5
       (defaultDueDate zone_minus5 noon_2024_01_10_minus5) false = true.
Proof.
  assert (H1 : - msPerDay <= -5 * msPerHour < msPerDay)
    by (unfold msPerDay, msPerHour; lia).
  assert (H2 : fourDigitYear
                 (defaultDueDate (fixedZone (-5 * msPerHour))
                    noon_2024_01_10_minus5))
    by (vm_compute; split; discriminate).
  split; [exact H1 |]. split; [exact H2 |].
  exact (proj2 (proj2 (defaultDueDate_is_due_soon (-5 * msPerHour)
                         noon_2024_01_10_minus5 H1 H2))).
Defined.

Example formatDate_examples :
  formatDate zone_minus5 noon_2024_01_10_minus5 (Some date_2024_03_31)
  = "Mar 30, 2024"%string
  /\ formatDate (fixedZone 0) noon_2024_01_10_minus5 (Some date_2024_03_31)
     = "Mar 31, 2024"%string
  /\ formatDate (fixedZone 0) noon_2024_01_10_minus5 (Some date_2024_01_10)
     = "Today"%string
  /\ defaultDueDate zone_minus5 noon_2024_01_10_minus5
     = {| iso_year := 2024; iso_month := 1; iso_day := 11 |}.
Proof. repeat split; reflexivity. Qed.

(** ** Numbers as text *)

Ltac eval_digit :=
  match goal with
  | |- context [digitValue ?r ?c] =>
      let v := eval vm_compute in (digitValue r c) in
      change (digitValue r c) with v
  end.

Lemma parseDigits_uint (u : Decimal.uint) (a : Z) :
  parseDigits 10 (DecimalString.NilEmpty.string_of_uint u) (Some a)
  = Some (digitsValue a u).
Proof.
  revert a. induction u; intros a;
    cbn [DecimalString.NilEmpty.string_of_uint parseDigits digitsValue];
    [reflexivity | eval_digit; apply IHu ..].
Qed.

Lemma digitsValue_acc (u : Decimal.uint) (acc : positive) :
  digitsValue (Z.pos acc) u = Z.pos (Pos.of_uint_acc u acc).
Proof.
  revert acc. induction u; intros acc; cbn [digitsValue Pos.of_uint_acc];
    [reflexivity | rewrite <- IHu; f_equal; lia ..].
Qed.

Lemma digitsValue_0 (u : Decimal.uint) : digitsValue 0 u = Z.of_uint u.
Proof.
  unfold Z.of_uint.
  induction u; cbn [digitsValue Pos.of_uint];
    [reflexivity | exact IHu | apply digitsValue_acc ..].
Qed.

Ltac eval_white :=
  match goal with
  | |- context [isWhiteSpace ?c] =>
      let v := eval vm_compute in (isWhiteSpace c) in
      change (isWhiteSpace c) with v
  end.

Ltac read_digits :=
  unfold parseInt;
  cbn [DecimalString.NilZero.string_of_uint
       DecimalString.NilEmpty.string_of_uint trimStart];
  eval_white; cbv iota beta zeta;
  cbn [parseDigits]; repeat (eval_digit; cbv iota beta);
  change (default 0 None) with 0; cbn [default from_option id];
  rewrite parseDigits_uint; cbn [digitsValue];
  rewrite ?Z.mul_1_l; reflexivity.

(** What [parseInt] reads in a run of decimal digits. *)
Lemma parseInt_digits (u : Decimal.uint) :
  parseInt (DecimalString.NilZero.string_of_uint u) = Some (Z.of_uint u).
Proof.
  rewrite <- digitsValue_0.
  destruct u as [| u | u | u | u | u | u | u | u | u | u];
    [reflexivity | | read_digits ..].
  destruct u; [reflexivity | read_digits ..].
Qed.

Lemma parseInt_negative (u : Decimal.uint) :
  parseInt (String "-" (DecimalString.NilZero.string_of_uint u))
  = Some (- Z.of_uint u).
Proof.
  rewrite <- digitsValue_0.
  destruct u as [| u | u | u | u | u | u | u | u | u | u];
    [reflexivity | | read_digits ..].
  destruct u; [reflexivity | read_digits ..].
Qed.

Lemma parseInt_Number_toString (n : Z) : parseInt (Number_toString n) = Some n.
Proof.
  unfold Number_toString.
  pose proof (DecimalZ.of_to n) as H.
  destruct (Z.to_int n) as [u | u]; cbn [Z.of_int] in H;
    cbn [DecimalString.NilZero.string_of_int].
  - rewrite parseInt_digits. now rewrite H.
  - rewrite parseInt_negative. now rewrite H.
Qed.

(** ** Filtering and sorting together *)

Lemma filter_sublist {A} (p : A -> bool) (l : list A) :
  sublist (List.filter p l) l.
Proof.
  induction l as [| x l IH]; cbn [List.filter]; [constructor |].
  destruct (p x); [apply sublist_skip | apply sublist_cons]; exact IH.
Qed.

Lemma filter_idem {A} (p : A -> bool) (l : list A) :
  List.filter p (List.filter p l) = List.filter p l.
Proof.
  rewrite filter_filter. apply filter_ext_bool. intros a. now destruct (p a).
Qed.

(** X6. Filtering is idempotent, and its result is a sublist of the
    input: the assignments kept stay in their input order and none is
    added or repeated. *)
Theorem filterAssignments_idempotent (l : list Assignment) (f : Filters) :
  filterAssignments (filterAssignments l f) f = filterAssignments l f
  /\ sublist (filterAssignments l f) l
  /\ (length (filterAssignments l f) <= length l)%nat.
Proof.
  rewrite !filterAssignments_criteria. split; [apply filter_idem |].
  split; [apply filter_sublist |].
  apply sublist_length, filter_sublist.
Qed.

(** Every comparator that [sortAssignments] selects is the difference of
    a key on assignments with a priority of the enumeration. *)
Lemma comparator_keyed (sortBy : string) :
  exists key : Assignment -> Z,
    forall a b, validPriority a -> validPriority b ->
                comparator sortBy a b = Some (key a - key b).
Proof.
  unfold comparator.
  destruct (String.eqb sortBy "dueDate");
    [exists dueKey; intros; reflexivity |].
  destruct (String.eqb sortBy "priority");
    [exists priorityRank; apply comparePriority_key |].
  destruct (String.eqb sortBy "points");
    [exists pointsKey; intros; now apply comparePoints_key
    | exists dueKey; intros; reflexivity].
Qed.

Lemma StronglySorted_filter {A} (R : A -> A -> Prop) (p : A -> bool)
  (l : list A) :
  StronglySorted R l -> StronglySorted R (List.filter p l).
Proof.
  induction 1 as [| x l Hs IH Hx]; cbn [List.filter]; [constructor |].
  destruct (p x); [| exact IH].
  constructor; [exact IH |].
  rewrite List.Forall_forall in *. intros y Hy.
  apply filter_In in Hy as [Hy _]. auto.
Qed.

Lemma Forall_filter_bool {A} (P : A -> Prop) (p : A -> bool) (l : list A) :
  List.Forall P l -> List.Forall P (List.filter p l).
Proof.
  rewrite !List.Forall_forall. intros H x Hx.
  apply filter_In in Hx as [Hx _]. auto.
Qed.

Lemma filter_comm {A} (p q : A -> bool) (l : list A) :
  List.filter p (List.filter q l) = List.filter q (List.filter p l).
Proof.
  rewrite !filter_filter. apply filter_ext_bool. intros a. apply andb_comm.
Qed.

Section SortAndFilter.

Context {A : Type}.
Variable cmp : A -> A -> option Z.
Variable key : A -> Z.
Variable P : A -> Prop.
Hypothesis cmp_key : forall a b, P a -> P b -> cmp a b = Some (key a - key b).

Lemma Array_sort_idem (l : list A) :
  List.Forall P l -> Array_sort cmp (Array_sort cmp l) = Array_sort cmp l.
Proof.
  intros HP. symmetry.
  apply (Array_sort_unique cmp key P cmp_key).
  - apply Array_sort_Forall, HP.
  - apply (Array_sort_sorted cmp key P cmp_key), HP.
  - reflexivity.
Qed.

Lemma Array_sort_filter (p : A -> bool) (l : list A) :
  List.Forall P l ->
  List.filter p (Array_sort cmp l) = Array_sort cmp (List.filter p l).
Proof.
  intros HP. apply (Array_sort_unique cmp key P cmp_key).
  - apply Forall_filter_bool, HP.
  - apply StronglySorted_filter, (Array_sort_sorted cmp key P cmp_key), HP.
  - intros k. rewrite filter_comm.
    rewrite (Array_sort_stable cmp key P cmp_key) by exact HP.
    apply filter_comm.
Qed.

End SortAndFilter.

(** X7. On assignments with priorities of the enumeration, sorting is
    idempotent for every sort key: a sorted list is left as it is. *)
Theorem sortAssignments_idempotent (l : list Assignment) (sortBy : string) :
  List.Forall validPriority l ->
  sortAssignments (sortAssignments l sortBy) sortBy = sortAssignments l sortBy.
Proof.
  intros Hv. unfold sortAssignments.
  destruct (comparator_keyed sortBy) as [key Hkey].
  apply (Array_sort_idem _ key validPriority Hkey l Hv).
Qed.

(** X8. On assignments with priorities of the enumeration, filtering and
    sorting commute: sorting the filtered list (what [renderAssignments]
    does) gives the list that filtering the sorted list gives. *)
Theorem sort_filter_commute (l : list Assignment) (f : Filters)
  (sortBy : string) :
  List.Forall validPriority l ->
  sortAssignments (filterAssignments l f) sortBy
  = filterAssignments (sortAssignments l sortBy) f.
Proof.
  intros Hv. unfold sortAssignments. rewrite !filterAssignments_criteria.
  destruct (comparator_keyed sortBy) as [key Hkey].
  symmetry. apply (Array_sort_filter _ key validPriority Hkey _ l Hv).
Qed.

Lemma sample_assignments_valid : List.Forall validPriority sample_assignments.
Proof.
  unfold sample_assignments, validPriority.
  constructor; [right; right; reflexivity |].
  constructor; [right; left; reflexivity |].
  constructor; [left; reflexivity |].
  constructor; [left; reflexivity | constructor].
Defined.

Lemma sortAssignments_idempotent_witness :
  List.Forall validPriority sample_assignments
  /\ sortAssignments (sortAssignments sample_assignments "priority") "priority"
     = sortAssignments sample_assignments "priority".
Proof.
  split; [exact sample_assignments_valid |].
  exact (sortAssignments_idempotent sample_assignments "priority"
           sample_assignments_valid).
Defined.

Lemma sort_filter_commute_witness :
  List.Forall validPriority sample_assignments
  /\ sortAssignments
       (filterAssignments sample_assignments (incompleteOfCourse "9"))
       "points"
     = filterAssignments (sortAssignments sample_assignments "points")
         (incompleteOfCourse "9").
Proof.
  split; [exact sample_assignments_valid |].
  exact (sort_filter_commute sample_assignments (incompleteOfCourse "9")
           "points" sample_assignments_valid).
Defined.

(** ** The rendered list *)

Lemma orElse_absent (d : string) :
  orElse None d = d /\ orElse (Some EmptyString) d = d.
Proof. split; reflexivity. Qed.

Lemma filterAssignments_no_criteria (l : list Assignment) :
  filterAssignments l (controlFilters None None None) = l.
Proof. reflexivity. Qed.

(** X9. What [renderAssignments] shows, when its container is in the
    page: the empty state exactly when no assignment passes the criteria
    read from the controls; otherwise one card for each assignment that
    passes them and for no other.  With every control empty or absent it
    shows all the assignments, ordered by due date. *)
Theorem renderAssignments_shows_matches (data : list Assignment)
  (filterCourse filterStatus searchInput sortSelect : option string) :
  match renderAssignments true data filterCourse filterStatus searchInput
          sortSelect with
  | Some EmptyState =>
      filterAssignments data
        (controlFilters filterCourse filterStatus searchInput) = []
  | Some (Cards shown) =>
      shown <> []
      /\ Permutation shown
           (filterAssignments data
              (controlFilters filterCourse filterStatus searchInput))
  | None => False
  end
  /\ renderAssignments true data None None None None
     = Some (match data with
             | [] => EmptyState
             | _ => Cards (sortAssignments data "dueDate")
             end)
  /\ renderAssignments false data filterCourse filterStatus searchInput
       sortSelect = None.
Proof.
  split; [| split; [| reflexivity]].
  - unfold renderAssignments. cbn [negb].
    fold (controlFilters filterCourse filterStatus searchInput).
    set (fl := filterAssignments data _).
    set (sorted := sortAssignments fl _).
    assert (Hp : Permutation sorted fl) by apply Array_sort_perm.
    destruct (Nat.eqb_spec (length sorted) 0) as [E | E].
    + apply length_zero_iff_nil in E. rewrite E in Hp.
      now apply Permutation_nil in Hp.
    + split; [| exact Hp]. intros ->. apply E. reflexivity.
  - unfold renderAssignments. cbn [negb orElse truthy].
    change (filterAssignments data _) with data.
    assert (Hp : Permutation (sortAssignments data "dueDate") data)
      by apply Array_sort_perm.
    destruct data as [| a r]; [reflexivity |].
    destruct (sortAssignments (a :: r) "dueDate") eqn:E; [| reflexivity].
    apply Permutation_nil in Hp. discriminate.
Qed.

Example renderAssignments_sample :
  renderAssignments true sample_assignments (Some "9"%string)
    (Some "incomplete"%string) (Some ""%string) (Some "priority"%string)
  = Some (Cards [reading; lab])
  /\ renderAssignments true sample_assignments (Some "8"%string) None None None
     = Some EmptyState.
Proof. split; reflexivity. Qed.

(** ** Priority badge and priority sort *)

Lemma getPriorityInfo_valid (a : Assignment) :
  validPriority a ->
  lookedOrder (getPriorityInfo (Some (priority a))) = Some (priorityRank a).
Proof.
  unfold validPriority, priorityRank.
  intros [-> | [-> | ->]]; reflexivity.
Qed.

(** X10. For the three priorities of the enumeration the [order] that
    [getPriorityInfo] reports is the rank that the priority sort uses, so
    a list sorted by priority shows its badges in ascending [order]. *)
Theorem priority_badge_follows_sort (l : list Assignment) :
  List.Forall validPriority l ->
  (forall a, In a l ->
             lookedOrder (getPriorityInfo (Some (priority a)))
             = priorityOrder (priority a))
  /\ (forall i j a b,
        (i < j)%nat ->
        sortAssignments l "priority" !! i = Some a ->
        sortAssignments l "priority" !! j = Some b ->
        exists x y,
          lookedOrder (getPriorityInfo (Some (priority a))) = Some x
          /\ lookedOrder (getPriorityInfo (Some (priority b))) = Some y
          /\ x <= y).
Proof.
  intros Hv. split.
  - intros a Ha. rewrite List.Forall_forall in Hv.
    specialize (Hv a Ha). rewrite (getPriorityInfo_valid a Hv).
    unfold priorityRank.
    destruct Hv as [-> | [-> | ->]]; reflexivity.
  - intros i j a b Hij Hi Hj. unfold sortAssignments in *.
    change (comparator "priority") with comparePriority in *.
    pose proof (Array_sort_sorted _ _ _ comparePriority_key l Hv) as Hs.
    pose proof (StronglySorted_lookup _ _ i j a b Hs Hij Hi Hj) as Hle.
    pose proof (Array_sort_Forall comparePriority validPriority l Hv) as Hall.
    rewrite List.Forall_forall in Hall.
    assert (Ha : validPriority a).
    { apply Hall, list_elem_of_In. eapply list_elem_of_lookup_2. exact Hi. }
    assert (Hb : validPriority b).
    { apply Hall, list_elem_of_In. eapply list_elem_of_lookup_2. exact Hj. }
    exists (priorityRank a), (priorityRank b).
    split; [apply getPriorityInfo_valid, Ha |].
    split; [apply getPriorityInfo_valid, Hb | exact Hle].
Qed.

Lemma priority_badge_follows_sort_witness :
  List.Forall validPriority sample_assignments
  /\ forall a, In a sample_assignments ->
               lookedOrder (getPriorityInfo (Some (priority a)))
               = priorityOrder (priority a).
Proof.
  split; [exact sample_assignments_valid |].
  exact (proj1 (priority_badge_follows_sort sample_assignments
                  sample_assignments_valid)).
Defined.

(** ** The course filter *)

Lemma orElse_Some (s d : string) :
  s <> EmptyString -> orElse (Some s) d = s.
Proof. intros H. unfold orElse. now rewrite (truthy_Some s H). Qed.

Lemma Number_toString_nonempty (n : Z) : Number_toString n <> EmptyString.
Proof.
  intros E. pose proof (parseInt_Number_toString n) as H.
  rewrite E in H. discriminate.
Qed.

(** X11. [String(n)] and [parseInt] are inverse on integers: with the
    value of a course's option selected in the course filter, the filter
    keeps exactly the assignments of that course, in their input
    order. *)
Theorem filter_by_course_option (l : list Assignment) (id : Z) :
  - 2 ^ 53 < id < 2 ^ 53 ->
  parseInt (courseOptionValue id) = Some id
  /\ filterAssignments l
       (controlFilters (Some (courseOptionValue id)) None None)
     = List.filter (fun a => courseId a =? id) l.
Proof.
  intros _. unfold courseOptionValue.
  split; [apply parseInt_Number_toString |].
  rewrite filterAssignments_criteria. apply filter_ext_bool. intros a.
  unfold courseCriterion, statusCriterion, searchCriterion, controlFilters,
    statusIs.
  cbn [f_courseId f_status f_search].
  rewrite (orElse_Some _ _ (Number_toString_nonempty id)).
  rewrite (truthy_Some _ (Number_toString_nonempty id)).
  change (default EmptyString (Some (Number_toString id)))
    with (Number_toString id).
  unfold byCourse. rewrite parseInt_Number_toString.
  change (orElse None EmptyString) with EmptyString.
  cbn. now rewrite !andb_true_r.
Qed.

Lemma filter_by_course_option_witness :
  (- 2 ^ 53 < 9 < 2 ^ 53)
  /\ filterAssignments sample_assignments
       (controlFilters (Some (courseOptionValue 9)) None None)
     = [lab; reading].
Proof.
  assert (H : - 2 ^ 53 < 9 < 2 ^ 53) by (split; reflexivity).
  split; [exact H |].
  exact (proj2 (filter_by_course_option sample_assignments 9 H)).
Defined.

(** ** Assignment cards *)

(** X12. The markers of a card agree, in every zone: the class list is
    one of three and never holds both "completed" and "overdue"; the
    suffix "(Overdue)" goes with the class "overdue" and the suffix
    "(Due Soon)" with the class "due-soon", and the two never meet; a
    completed assignment carries neither suffix. *)
Theorem card_markers_agree (z : Zone) (now : Z) (a : Assignment) :
  (cardClasses z now a = "assignment-card"%string
   \/ cardClasses z now a = "assignment-card completed"%string
   \/ cardClasses z now a = "assignment-card overdue"%string)
  /\ (dueSuffix z now a = " (Overdue)"%string
      <-> cardClasses z now a = "assignment-card overdue"%string)
  /\ (dueSuffix z now a = " (Due Soon)"%string
      <-> dueDateClass z now a = "due-date due-soon"%string)
  /\ (dueDateClass z now a = "due-date due-soon"%string ->
      cardClasses z now a = "assignment-card"%string)
  /\ (completed a = true ->
      cardClasses z now a = "assignment-card completed"%string
      /\ dueSuffix z now a = EmptyString
      /\ dueDateClass z now a = "due-date"%string).
Proof.
  unfold cardClasses, dueSuffix, dueDateClass.
  pose proof (isDueSoon_not_overdue z now (dueDate a) (completed a)) as Hx.
  destruct (completed a) eqn:Hc.
  - rewrite isOverdue_completed, isDueSoon_completed. cbn.
    repeat split; intros; try discriminate; auto.
  - destruct (isOverdue z now (dueDate a) false) eqn:Ho;
      destruct (isDueSoon z now (dueDate a) false) eqn:Hs;
      try (destruct (Hx eq_refl) as [Hf _]; discriminate Hf);
      cbn; repeat split; intros; try discriminate; auto.
Qed.

Example cardClasses_samples :
  cardClasses zone_minus5 noon_2024_01_10_minus5 quiz
  = "assignment-card completed"%string
  /\ cardClasses zone_minus5 noon_2024_01_10_minus5 essay
     = "assignment-card overdue"%string
  /\ dueSuffix zone_minus5 noon_2024_01_10_minus5 reading
     = " (Due Soon)"%string
  /\ cardClasses zone_minus5 noon_2024_01_10_minus5 lab
     = "assignment-card"%string.
Proof. repeat split; reflexivity. Qed.

(** ** The completion chart *)

(** X13. When the canvas is in the page [updateChart] replaces the data
    of the chart, whatever it was, by three segments that are never
    negative for counts that are not; they add up to the total whenever
    completed and overdue together do not exceed it, and otherwise the
    middle segment is clamped to zero.  Without canvas and chart nothing
    is drawn. *)
Theorem updateChart_segments (chart : option (list Z)) (stats : Stats) :
  (exists incomplete,
      updateChart true chart stats
      = Some [st_completed stats; incomplete; st_overdue stats]
      /\ 0 <= incomplete
      /\ (st_completed stats + st_overdue stats <= st_total stats ->
          sumZ [st_completed stats; incomplete; st_overdue stats]
          = st_total stats)
      /\ (st_total stats < st_completed stats + st_overdue stats ->
          incomplete = 0))
  /\ updateChart false None stats = None.
Proof.
  split; [| reflexivity].
  unfold updateChart, initializeChart.
  set (inc := st_total stats - st_completed stats - st_overdue stats).
  exists (if inc >? 0 then inc else 0).
  split; [destruct chart; reflexivity |].
  destruct (Z.gtb_spec inc 0); unfold sumZ; cbn [fold_left];
    repeat split; intros; subst inc; lia.
Qed.

Example updateChart_sample :
  updateChart true None
    {| st_total := 10; st_completed := 4; st_overdue := 3 |}
  = Some [4; 3; 3]
  /\ updateChart true (Some [4; 3; 3])
       {| st_total := 5; st_completed := 4; st_overdue := 3 |}
     = Some [4; 0; 3].
Proof. split; reflexivity. Qed.

(** X14. The percentage of a tooltip is the progress percentage of the
    same two numbers, [calculateProgress(value, total)], whenever the sum
    of the dataset is not negative; on an all-zero dataset it is 0. *)
Theorem tooltipPercentage_is_progress (value : Z) (data : list Z) :
  0 <= sumZ data ->
  tooltipPercentage value data = calculateProgress value (sumZ data).
Proof.
  intros H. unfold tooltipPercentage, calculateProgress.
  destruct (Z.eqb_spec (sumZ data) 0) as [E | E].
  - rewrite E. reflexivity.
  - destruct (Z.gtb_spec (sumZ data) 0); [reflexivity | lia].
Qed.

Lemma tooltipPercentage_is_progress_witness :
  0 <= sumZ [4; 3; 3]
  /\ tooltipPercentage 3 [4; 3; 3] = calculateProgress 3 10.
Proof.
  assert (H : 0 <= sumZ [4; 3; 3]) by (vm_compute; discriminate).
  split; [exact H |].
  exact (tooltipPercentage_is_progress 3 [4; 3; 3] H).
Defined.

(** ** Submitting the assignment form *)

Example trim_examples :
  trim "  Essay 1 " = "Essay 1"%string /\ trim "   " = EmptyString
  /\ trim "" = EmptyString.
Proof. repeat split; reflexivity. Qed.

Lemma noCourse_false (data : AssignmentData) :
  noCourse data = false
  <-> exists n, data_courseId data = Some n /\ n <> 0.
Proof.
  unfold noCourse. destruct (data_courseId data) as [n |].
  - rewrite Z.eqb_neq. split.
    + intros H. exists n. split; [reflexivity | exact H].
    + intros [m [Hm H]]. injection Hm as ->. exact H.
  - split; [discriminate | intros [n [Hn _]]; discriminate].
Qed.

(** X15. For a form filled with ASCII text whose course and points
    fields read as safe integers (or as no number), one submit of the
    assignment form issues at most one request, and issues one exactly
    when the course field reads as a non-zero integer; the request
    carries that course id and integer points (0 when the points field is
    not a number); the modal is closed exactly when a request was issued
    and it succeeded. *)
Theorem handleAssignmentSubmit_protocol (editId : option string)
  (form : AssignmentForm) (apiOk : bool) :
  domainForm form ->
  let effects := handleAssignmentSubmit editId form apiOk in
  (length (List.filter isApiCall effects) <= 1)%nat
  /\ (existsb isApiCall effects = true
      <-> exists n, parseInt (in_course form) = Some n /\ n <> 0)
  /\ (forall e d,
        In e effects -> requestData e = Some d ->
        d = readAssignmentForm form
        /\ (exists n, data_courseId d = Some n /\ n <> 0)
        /\ (parseInt (in_points form) = None -> data_points d = 0))
  /\ (existsb isCloseModal effects = true
      <-> existsb isApiCall effects = true /\ apiOk = true).
Proof.
  intros _. cbv zeta. unfold handleAssignmentSubmit.
  pose proof (noCourse_false (readAssignmentForm form)) as Hn.
  cbn [readAssignmentForm data_courseId] in Hn.
  destruct (noCourse (readAssignmentForm form)) eqn:Hc.
  - cbn. split; [lia |]. split; [| split].
    + split; [discriminate | intros H; apply Hn in H; discriminate].
    + intros e d [<- | [<- | []]]; discriminate.
    + split; [discriminate | intros [H _]; discriminate].
  - assert (Hex : exists n, parseInt (in_course form) = Some n /\ n <> 0)
      by (apply Hn; reflexivity).
    assert (Hpts : parseInt (in_points form) = None ->
                   data_points (readAssignmentForm form) = 0).
    { intros E. cbn [readAssignmentForm data_points]. now rewrite E. }
    destruct (truthy editId), apiOk; cbn;
      (split; [lia |]);
      (split; [split; [intros _; exact Hex | reflexivity] |]);
      (split;
       [ intros e d Hin Hd;
         repeat (destruct Hin as [<- | Hin]; try discriminate Hd);
         try contradiction;
         injection Hd as <-; auto
       | split; [intros H; try discriminate H; split; reflexivity
                | intros [_ H]; try discriminate H; reflexivity] ]).
Qed.

Lemma handleAssignmentSubmit_protocol_witness :
  domainForm sample_form
  /\ (existsb isApiCall (handleAssignmentSubmit None sample_form true) = true
      <-> exists n, parseInt (in_course sample_form) = Some n /\ n <> 0).
Proof.
  assert (Hd : domainForm sample_form).
  { split; [reflexivity |]. split; [split; reflexivity | exact I]. }
  split; [exact Hd |].
  exact (proj1 (proj2 (handleAssignmentSubmit_protocol None sample_form true
                         Hd))).
Defined.

Example handleAssignmentSubmit_no_course :
  handleAssignmentSubmit None
    {| in_course := ""; in_title := " Essay "; in_description := "";
       in_duedate := "2024-01-10"; in_priority := "high"; in_points := "" |}
    true
  = [PreventDefault; ShowToast "Please select a course" "error"].
Proof. reflexivity. Qed.

Example handleAssignmentSubmit_create :
  handleAssignmentSubmit None
    {| in_course := "7"; in_title := " Essay "; in_description := "";
       in_duedate := "2024-01-10"; in_priority := "high"; in_points := "x" |}
    false
  = [ PreventDefault;
      CreateAssignmentAPI
        {| data_courseId := Some 7; data_title := "Essay";
           data_description := ""; data_dueDate := "2024-01-10";
           data_priority := "high"; data_points := 0 |};
      ConsoleError "Failed to save assignment:";
      ShowToast "Failed to save assignment. Please try again." "error" ].
Proof. reflexivity. Qed.

(** ** Debouncing *)

Section DebounceFacts.

Import Debounce.

Context {A : Type}.
Variable wait : Z.

Lemma dropTimer_single (tm : Timer A) :
  dropTimer (timer_id tm) [tm] = [].
Proof. unfold dropTimer. cbn. now rewrite Nat.eqb_refl. Qed.

Lemma Inv_init (t0 : Z) : Inv wait (init (A := A) t0).
Proof.
  unfold Inv, init. cbn.
  repeat split; try (intros; contradiction); auto.
  constructor.
Qed.

Lemma Inv_call (t : Z) (args : A) (s : State A) :
  clock s <= t -> Inv wait s -> Inv wait (call wait t args s).
Proof.
  intros Ht (Htm & Hc & He & Hs & Hx & Hl & Hq).
  assert (Hts : clearTimeout (timeout s) (timers s) = []).
  { destruct Htm as [E | (tm & rest & E & Eto & _)].
    - rewrite E. destruct (timeout s); reflexivity.
    - rewrite E, Eto. apply dropTimer_single. }
  unfold Inv, call. cbn [timers timeout calls executed clock nextId].
  rewrite Hts. cbn [app length].
  split.
  { right. eexists. exists (calls s). cbn [timer_id timer_due timer_args].
    split; [reflexivity |]. split; [reflexivity |].
    cbn [timer_id timer_due timer_args].
    replace (t + delay wait - delay wait) with t by ring. reflexivity. }
  split.
  { intros tc x [E | Hin]; [injection E as <- _; lia |].
    specialize (Hc tc x Hin). lia. }
  split.
  { intros te x Hin. specialize (He te x Hin). lia. }
  split.
  { constructor; [exact Hs |]. rewrite List.Forall_forall.
    intros [tc x] Hin. cbn. specialize (Hc tc x Hin). lia. }
  split.
  { intros te x Hin. destruct (Hx te x Hin) as (tc & Hin' & Hd & Hb).
    exists tc. split; [right; exact Hin' |]. split; [exact Hd |].
    intros tc' x' [E | Hin''].
    - injection E as <- _. right. specialize (He te x Hin). lia.
    - apply (Hb tc' x' Hin''). }
  split.
  { destruct Htm as [E | (tm & rest & E & _)]; rewrite E in Hl;
      cbn [length] in *; lia. }
  intros E. discriminate.
Qed.

Lemma Inv_fire (t : Z) (tm : Timer A) (s : State A) :
  clock s <= t -> In tm (timers s) -> timer_due tm <= t ->
  Inv wait s -> Inv wait (fire t tm s).
Proof.
  intros Ht Hin Hdue (Htm & Hc & He & Hs & Hx & Hl & Hq).
  destruct Htm as [E | (tm0 & rest & E & Eto & Ecalls)];
    [rewrite E in Hin; contradiction |].
  rewrite E in Hin. destruct Hin as [<- | []].
  assert (Hts : clearTimeout (timeout s)
                  (dropTimer (timer_id tm0) (timers s)) = []).
  { rewrite E, dropTimer_single. destruct (timeout s); reflexivity. }
  unfold Inv, fire. cbn [timers timeout calls executed clock nextId].
  rewrite Hts. cbn [length].
  split; [left; reflexivity |].
  split.
  { intros tc x Hin. specialize (Hc tc x Hin). lia. }
  split.
  { intros te x [Eq | Hin]; [injection Eq as <- _; lia |].
    specialize (He te x Hin). lia. }
  split; [exact Hs |].
  split.
  { intros te x [Eq | Hin]; [| apply (Hx te x Hin)].
    injection Eq as <- <-.
    exists (timer_due tm0 - delay wait).
    split; [rewrite Ecalls; left; reflexivity |]. split; [lia |].
    intros tc' x' Hin'. left. rewrite Ecalls in Hin', Hs.
    destruct Hin' as [Eq | Hin']; [injection Eq as <- _; lia |].
    inversion Hs as [| ? ? _ Hall]; subst.
    rewrite List.Forall_forall in Hall. apply (Hall (tc', x') Hin'). }
  split.
  { rewrite E in Hl. cbn [length] in *. lia. }
  intros _. rewrite Ecalls. eexists. eexists. reflexivity.
Qed.

Lemma Inv_reachable (t0 : Z) (s : State A) :
  reachable wait t0 s -> Inv wait s.
Proof.
  induction 1 as [| s s' _ IH Hstep]; [apply Inv_init |].
  destruct Hstep; [apply Inv_call | apply Inv_fire]; assumption.
Qed.

End DebounceFacts.

(** X16. At every moment a debounced function has at most one timer
    pending, and [func] has run at most as often as the debounced
    function was called. *)
Theorem debounce_single_timer {A : Type} (wait t0 : Z)
  (s : Debounce.State A) :
  Debounce.reachable wait t0 s ->
  (length (Debounce.timers s) <= 1)%nat
  /\ (length (Debounce.executed s) <= length (Debounce.calls s))%nat.
Proof.
  intros H. apply (Inv_reachable wait t0) in H.
  destruct H as (Htm & _ & _ & _ & _ & Hl & _).
  assert (Hle : (length (Debounce.executed s)
                 <= length (Debounce.calls s))%nat)
    by (eapply Nat.le_trans; [apply Nat.le_add_r | exact Hl]).
  destruct Htm as [E | (tm & rest & E & _)]; rewrite E; cbn [length];
    split; auto.
Qed.

(** X17. For a delay that fits a signed 32-bit integer, every run of
    [func] serves the call of the debounced function that was the latest
    one: it has the arguments of a call made at least the delay earlier,
    and no call was made in between.  And when no timer is pending the
    latest call has been served, so the last arguments are never lost. *)
Theorem debounce_serves_latest_call {A : Type} (wait t0 : Z)
  (s : Debounce.State A) :
  wait <= 2147483647 ->
  Debounce.reachable wait t0 s ->
  (forall te x,
      In (te, x) (Debounce.executed s) ->
      exists tc,
        In (tc, x) (Debounce.calls s)
        /\ tc + Debounce.delay wait <= te
        /\ forall tc' x',
            In (tc', x') (Debounce.calls s) -> tc' <= tc \/ te <= tc')
  /\ (Debounce.timers s = [] ->
      match Debounce.calls s with
      | [] => Debounce.executed s = []
      | (_, x) :: _ => exists te rest, Debounce.executed s = (te, x) :: rest
      end).
Proof.
  intros _ H. apply (Inv_reachable wait t0) in H.
  destruct H as (_ & _ & _ & _ & Hx & _ & Hq). split; assumption.
Qed.

Lemma debounce_sample_reachable :
  Debounce.reachable 300 0
    (Debounce.fire 450 {| Debounce.timer_id := 2; Debounce.timer_due := 400;
                          Debounce.timer_args := "ab"%string |}
       (Debounce.call 300 100 "ab"%string
          (Debounce.call 300 0 "a"%string (Debounce.init 0)))).
Proof.
  set (s0 := Debounce.init (A := string) 0).
  set (s1 := Debounce.call 300 0 "a"%string s0).
  set (s2 := Debounce.call 300 100 "ab"%string s1).
  apply (Debounce.reach_step 300 0 s2).
  - apply (Debounce.reach_step 300 0 s1).
    + apply (Debounce.reach_step 300 0 s0); [apply Debounce.reach_init |].
      apply Debounce.step_call. cbn. lia.
    + apply Debounce.step_call. cbn. lia.
  - apply Debounce.step_fire; cbn; [lia | left; reflexivity | lia].
Defined.

Lemma debounce_single_timer_witness :
  let s := Debounce.fire 450
             {| Debounce.timer_id := 2; Debounce.timer_due := 400;
                Debounce.timer_args := "ab"%string |}
             (Debounce.call 300 100 "ab"%string
                (Debounce.call 300 0 "a"%string (Debounce.init 0))) in
  Debounce.reachable 300 0 s
  /\ (length (Debounce.timers s) <= 1)%nat.
Proof.
  split; [exact debounce_sample_reachable |].
  exact (proj1 (debounce_single_timer 300 0 _ debounce_sample_reachable)).
Defined.

Lemma debounce_serves_latest_call_witness :
  let s := Debounce.fire 450
             {| Debounce.timer_id := 2; Debounce.timer_due := 400;
                Debounce.timer_args := "ab"%string |}
             (Debounce.call 300 100 "ab"%string
                (Debounce.call 300 0 "a"%string (Debounce.init 0))) in
  300 <= 2147483647
  /\ Debounce.reachable 300 0 s
  /\ Debounce.executed s = [(450, "ab"%string)]
  /\ exists tc, In (tc, "ab"%string) (Debounce.calls s) /\ tc + 300 <= 450.
Proof.
  assert (Hw : 300 <= 2147483647) by lia.
  split; [exact Hw |].
  split; [exact debounce_sample_reachable |].
  split; [reflexivity |].
  destruct (proj1 (debounce_serves_latest_call 300 0 _ Hw
                     debounce_sample_reachable) 450 "ab"%string)
    as (tc & Hin & Hd & _); [left; reflexivity |].
  exists tc. split; [exact Hin | exact Hd].
Defined.

(** ** The percentage on small counts *)

Lemma countPairs_In (n : nat) (c t : Z) :
  0 <= c <= t -> 1 <= t <= Z.of_nat n -> In (c, t) (countPairs n).
Proof.
  intros Hc Ht. unfold countPairs. apply in_flat_map.
  exists (Z.to_nat t). split.
  - apply in_seq. lia.
  - apply in_map_iff. exists (Z.to_nat c). split.
    + f_equal; lia.
    + apply in_seq. lia.
Qed.

Lemma progressInRange_100 :
  forallb (fun ct => progressInRange ct.1 ct.2) (countPairs 100) = true.
Proof. vm_compute. reflexivity. Qed.

(** X18. For every count of completed assignments out of a total of at
    most 100, [calculateProgress] returns an integer from 0 to 100 that is
    within one of the exactly rounded percentage; it is 100 when all are
    completed and 0 when none is. *)
Theorem calculateProgress_range (completed total : Z) :
  0 <= completed <= total -> 1 <= total <= 100 ->
  exists p,
    integerValue (calculateProgress completed total) = Some p
    /\ 0 <= p <= 100
    /\ Z.abs (p - spec_completionRate completed total) <= 1
    /\ (completed = total -> p = 100)
    /\ (completed = 0 -> p = 0).
Proof.
  intros Hc Ht.
  pose proof progressInRange_100 as H. rewrite forallb_forall in H.
  specialize (H (completed, total)
                (countPairs_In 100 completed total Hc Ht)).
  cbn [fst snd] in H. unfold progressInRange in H.
  destruct (integerValue (calculateProgress completed total)) as [p |];
    [| discriminate].
  exists p. split; [reflexivity |].
  rewrite !andb_true_iff in H. destruct H as ((((H1 & H2) & H3) & H4) & H5).
  apply Z.leb_le in H1, H2, H3.
  split; [lia |]. split; [exact H3 |]. split.
  - intros ->. rewrite Z.eqb_refl in H4. now apply Z.eqb_eq in H4.
  - intros ->. rewrite Z.eqb_refl in H5. now apply Z.eqb_eq in H5.
Qed.

Lemma calculateProgress_range_witness :
  (0 <= 23 <= 40) /\ (1 <= 40 <= 100)
  /\ exists p, integerValue (calculateProgress 23 40) = Some p
               /\ 0 <= p <= 100.
Proof.
  assert (H1 : 0 <= 23 <= 40) by lia.
  assert (H2 : 1 <= 40 <= 100) by lia.
  split; [exact H1 |]. split; [exact H2 |].
  destruct (calculateProgress_range 23 40 H1 H2) as (p & Hp & Hr & _).
  exists p. split; [exact Hp | exact Hr].
Defined.

(** ** The order of the sorted list *)

(** X19. The order that [sortAssignments] returns is the only stable
    one: on assignments with priorities of the enumeration, any list that
    is in ascending order of the sort key and keeps, for every value of
    the key, the assignments of that value as they follow each other in
    the input, is the list returned (for the keys priority, dueDate and
    points). *)
Theorem sortAssignments_unique (l l' : list Assignment) :
  List.Forall validPriority l ->
  (StronglySorted (keyLe priorityRank) l' ->
   (forall k, List.filter (hasKey priorityRank k) l'
              = List.filter (hasKey priorityRank k) l) ->
   l' = sortAssignments l "priority")
  /\ (StronglySorted (keyLe dueKey) l' ->
      (forall k, List.filter (hasKey dueKey k) l'
                 = List.filter (hasKey dueKey k) l) ->
      l' = sortAssignments l "dueDate")
  /\ (StronglySorted (keyLe pointsKey) l' ->
      (forall k, List.filter (hasKey pointsKey k) l'
                 = List.filter (hasKey pointsKey k) l) ->
      l' = sortAssignments l "points").
Proof.
  intros Hv. unfold sortAssignments.
  change (comparator "priority") with comparePriority.
  change (comparator "dueDate") with compareDueDate.
  change (comparator "points") with comparePoints.
  split; [| split]; intros Hs Hf.
  - apply (Array_sort_unique _ _ _ comparePriority_key); assumption.
  - apply (Array_sort_unique _ _ _ compareDueDate_key);
      [apply Forall_True | assumption | assumption].
  - apply (Array_sort_unique _ _ _ comparePoints_key);
      [apply Forall_True | assumption | assumption].
Qed.

Lemma sortAssignments_unique_witness :
  List.Forall validPriority sample_assignments
  /\ [essay; reading; lab; quiz]
     = sortAssignments sample_assignments "priority".
Proof.
  split; [exact sample_assignments_valid |].
  apply (proj1 (sortAssignments_unique sample_assignments
                  [essay; reading; lab; quiz] sample_assignments_valid)).
  - unfold keyLe.
    repeat (constructor; [| repeat constructor; cbn; lia]). constructor.
  - intros k. unfold hasKey, sample_assignments.
    destruct (Z.eq_dec k 1) as [-> | N1]; [reflexivity |].
    destruct (Z.eq_dec k 2) as [-> | N2]; [reflexivity |].
    destruct (Z.eq_dec k 3) as [-> | N3]; [reflexivity |].
    assert (E1 : (1 =? k) = false) by (apply Z.eqb_neq; lia).
    assert (E2 : (2 =? k) = false) by (apply Z.eqb_neq; lia).
    assert (E3 : (3 =? k) = false) by (apply Z.eqb_neq; lia).
    cbn -[Z.eqb]. now rewrite E1, E2, E3.
Defined.
